(** * Restate SDK for Python: handler registration, invocation and the VM wrapper

    A shallow embedding of [restate/handler.py] and [restate/vm.py].

    Python objects that the code inspects at run time are modelled by the
    observations the code makes of them: truthiness ([not x]), class
    membership ([isinstance]), attribute reads and [str()].  Raised
    exceptions are explicit: every call that may raise returns an
    [outcome]. *)

From Stdlib Require Import ZArith String List DecimalString.
From Stdlib Require DecimalZ DecimalPos.
From stdpp Require Import base option gmap strings list.

#[local] Set Warnings "-register-all".
Open Scope Z_scope.
Open Scope string_scope.
Open Scope list_scope.

(** ** Python values, exceptions and outcomes *)

Module Python.

(** [bytes] objects. *)
Definition bytes : Type := list Byte.byte.

(** Instances of Python's [Exception] class that this code raises, catches
    or lets through.  [TerminalError] carries the [message] keyword it is
    built with and the [__cause__] set by [raise ... from e].  Every other
    exception class is described by its class name and by what [str(e)]
    returns. *)
Inductive exn : Type :=
| ValueError (msg : string)
| TypeError (msg : string)
| IndexError (msg : string)
| TerminalError (message : string) (cause : option exn)
| SuspendedException
| OtherException (cls : string) (msg : string).

(** [str(e)] as used by the f-string in [invoke_handler]. *)
Definition exn_str (e : exn) : string :=
  match e with
  | ValueError msg | TypeError msg | IndexError msg => msg
  | TerminalError message _ => message
  | SuspendedException => EmptyString
  | OtherException _ msg => msg
  end.

(** A call either returns a value or raises. *)
Inductive outcome (A : Type) : Type :=
| Return (a : A)
| Raise (e : exn).
Arguments Return {A} a.
Arguments Raise {A} e.

(** The Python objects that flow through the two modules.  [PyVoid],
    [PyFailure] and [PySuspended] are the result classes of the native
    engine module [restate_sdk_python_core]; [PyFailure]'s [_0] attribute
    holds [code] and [message].  [PyObject] stands for an instance of any
    other class, described by its class name and by its truth value. *)
Inductive pyobj : Type :=
| PyNone
| PyBool (b : bool)
| PyInt (n : Z)
| PyStr (s : string)
| PyBytes (b : bytes)
| PyVoid
| PyFailure (code : Z) (message : string)
| PySuspended
| PyObject (cls : string) (truth : bool).

(** Truth value testing: [None], [False], zero and empty sequences are
    false.  Modelled from the spec: the engine's result classes are native
    classes that are not under src; they define neither [__bool__] nor
    [__len__], so their instances are true, which is what lets a void
    success, a failure and a suspension reach their own branch. *)
Definition truthy (o : pyobj) : bool :=
  match o with
  | PyNone => false
  | PyBool b => b
  | PyInt n => negb (Z.eqb n 0)
  | PyStr s => negb (String.eqb s EmptyString)
  | PyBytes b => match b with [] => false | _ :: _ => true end
  | PyVoid | PyFailure _ _ | PySuspended => true
  | PyObject _ t => t
  end.

End Python.

(** ** vm.py: the wrapper around the engine *)

Module Vm.
Import Python.

Record Failure : Type := { code : Z; message : string }.

(** [AsyncResultType = Optional[Union[bytes, Failure, NotReady]]]:
    [None] is the success without a value, [NOT_READY] the singleton
    instance of [NotReady]. *)
Inductive AsyncResultType : Type :=
| AsyncNone
| AsyncBytes (b : bytes)
| AsyncFailure (f : Failure)
| NOT_READY.

(** The singleton [SUSPENDED = SuspendedException()]. *)
Definition SUSPENDED : exn := SuspendedException.

Section VMWrapper.

(** The engine [restate_sdk_python_core.PyVM] is opaque: a state and a
    transition for the one call modelled here, which returns some Python
    object or raises. *)
Variable PyVM : Type.
Variable vm_take_async_result : PyVM → pyobj → outcome pyobj * PyVM.

(** Python's built-in [str], used to format the unknown result. *)
Variable str : pyobj → string.

Record VMWrapper : Type := { vm : PyVM }.

(** [VMWrapper.take_async_result(self, handle)].  The chain of
    [isinstance] tests is written as a match on the object's class; the
    classes are pairwise disjoint. *)
Definition take_async_result (self : VMWrapper) (handle : pyobj)
  : outcome AsyncResultType * VMWrapper :=
  let '(r, vm') := vm_take_async_result (vm self) handle in
  let self' := {| vm := vm' |} in
  match r with
  | Raise e => (Raise e, self')
  | Return result =>
      if negb (truthy result) then (Return NOT_READY, self')
      else match result with
           | PyVoid => (Return AsyncNone, self')
           | PyBytes b => (Return (AsyncBytes b), self')
           | PyFailure c m =>
               (Return (AsyncFailure {| code := c; message := m |}), self')
           | PySuspended => (Raise SUSPENDED, self')
           | _ => (Raise (ValueError ("Unknown result type: " +:+ str result)),
                   self')
           end
  end.

End VMWrapper.

Arguments vm {PyVM} _.
Arguments take_async_result {PyVM} _ _ _ _.

(** An engine whose poll answers [r] whatever the handle. *)
Definition answering (r : pyobj) : unit → pyobj → outcome pyobj * unit :=
  λ s _, (Return r, s).

End Vm.

(** ** handler.py: descriptors, registration and invocation *)

Module Handlers.
Import Python.

Inductive service_kind : Type := kind_object | kind_service | kind_workflow.

Record ServiceTag : Type := { tag_kind : service_kind; tag_name : string }.

(** What a signature can carry as an annotation: the [empty] marker of
    [inspect], a class (with whether it derives from [PydanticBaseModel]),
    or an object that is not a class (a string, a [typing] construct). *)
Inductive annotation : Type :=
| ann_empty
| ann_class (name : string) (pydantic_model : bool)
| ann_not_a_class (repr : string).

Record TypeHint : Type :=
  { th_annotation : option annotation; th_is_pydantic : bool }.

(** Serde objects: the class they are an instance of, and their two
    methods.  [GeneralSerde] and [PydanticJsonSerde] come from
    [restate.serde]; any other implementation of [Serde] is a
    [cls_CustomSerde]. *)
Inductive serde_class : Type :=
| cls_GeneralSerde
| cls_PydanticJsonSerde (model : annotation)
| cls_CustomSerde (name : string).

Record Serde : Type :=
  { serde_cls : serde_class;
    deserialize : bytes → outcome pyobj;
    serialize : pyobj → outcome bytes }.

(** [isinstance(serde, GeneralSerde)]. *)
Definition isinstance_GeneralSerde (s : Serde) : bool :=
  match serde_cls s with cls_GeneralSerde => true | _ => false end.

Record HandlerIO : Type :=
  { accept : string;
    content_type : string;
    input_serde : Serde;
    output_serde : Serde;
    input_type : option TypeHint;
    output_type : option TypeHint }.

(** Attribute assignments on a [HandlerIO] object. *)
Definition set_input_type (v : option TypeHint) (io : HandlerIO) : HandlerIO :=
  {| accept := accept io; content_type := content_type io;
     input_serde := input_serde io; output_serde := output_serde io;
     input_type := v; output_type := output_type io |}.

Definition set_output_type (v : option TypeHint) (io : HandlerIO) : HandlerIO :=
  {| accept := accept io; content_type := content_type io;
     input_serde := input_serde io; output_serde := output_serde io;
     input_type := input_type io; output_type := v |}.

Definition set_input_serde (v : Serde) (io : HandlerIO) : HandlerIO :=
  {| accept := accept io; content_type := content_type io;
     input_serde := v; output_serde := output_serde io;
     input_type := input_type io; output_type := output_type io |}.

Definition set_output_serde (v : Serde) (io : HandlerIO) : HandlerIO :=
  {| accept := accept io; content_type := content_type io;
     input_serde := input_serde io; output_serde := v;
     input_type := input_type io; output_type := output_type io |}.

(** [type_hint.is_pydantic = True] on the hint held by an attribute. *)
Definition mark_pydantic (h : option TypeHint) : option TypeHint :=
  (λ t, {| th_annotation := th_annotation t; th_is_pydantic := true |}) <$> h.

(** [inspect.Signature]: the ordered [inspect.Parameter]s and the return
    annotation. *)
Record SigParameter : Type :=
  { param_name : string; param_annotation : annotation }.

Record Signature : Type :=
  { parameters : list SigParameter; return_annotation : annotation }.

(** A function object: its identity, its [__name__], and what calling it
    with a tuple of arguments does.  Its [__dict__] is mutable and lives in
    the [World]. *)
Record Function : Type :=
  { fn_id : positive;
    fn_name : string;
    fn_call : list pyobj → outcome pyobj }.

Inductive handler_kind : Type := kind_exclusive | kind_shared | kind_workflow_run.

(** Object references. *)
Definition ref : Type := positive.

(** The [Handler] dataclass.  [handler_io] is a reference: the descriptor
    shares the [HandlerIO] object it was built from. *)
Record Handler : Type :=
  { service_tag : ServiceTag;
    handler_io : ref;
    kind : option handler_kind;
    name : string;
    fn : Function;
    arity : Z }.

(** Values stored in a function's [__dict__]. *)
Inductive attr : Type :=
| AttrHandler (h : ref)
| AttrObject (o : pyobj).

(** The mutable store: [HandlerIO] objects, [Handler] objects, and the
    [__dict__] of every function object (absent means empty). *)
Record World : Type :=
  { handler_ios : gmap ref HandlerIO;
    handlers : gmap ref Handler;
    fn_dicts : gmap positive (gmap string attr) }.

(** [vars(f)]. *)
Definition vars (w : World) (f : Function) : gmap string attr :=
  default ∅ (fn_dicts w !! fn_id f).

(** Stateful code: a computation runs in a [World], returns or raises, and
    leaves a [World].  [None] is reserved for a reference to an object that
    does not exist, which no Python program can hold. *)
Definition M (A : Type) : Type := World → option (outcome A * World).

#[export] Instance M_ret : MRet M := λ A a w, Some (Return a, w).

#[export] Instance M_bind : MBind M := λ A B k m w,
  match m w with
  | None => None
  | Some (Raise e, w') => Some (Raise e, w')
  | Some (Return a, w') => k a w'
  end.

Definition raise {A : Type} (e : exn) : M A := λ w, Some (Raise e, w).

(** Attribute read and update of the [HandlerIO] object at [l]. *)
Definition get_io (l : ref) : M HandlerIO :=
  λ w, (λ io, (Return io, w)) <$> handler_ios w !! l.

Definition update_io (l : ref) (f : HandlerIO → HandlerIO) : M unit :=
  λ w, (λ io, (Return (),
               {| handler_ios := <[l := f io]> (handler_ios w);
                  handlers := handlers w;
                  fn_dicts := fn_dicts w |})) <$> handler_ios w !! l.

(** [Handler(...)]: allocate a new descriptor object. *)
Definition new_handler (h : Handler) : M ref :=
  λ w, let l := fresh (dom (handlers w)) in
       Some (Return l,
             {| handler_ios := handler_ios w;
                handlers := <[l := h]> (handlers w);
                fn_dicts := fn_dicts w |}).

(** [vars(f)[key] = v]. *)
Definition set_var (f : Function) (key : string) (v : attr) : M unit :=
  λ w, Some (Return (),
             {| handler_ios := handler_ios w;
                handlers := handlers w;
                fn_dicts := <[fn_id f := <[key := v]> (vars w f)]> (fn_dicts w) |}).

(** [issubclass(annotation, PydanticBaseModel)]; [None] is the [TypeError]
    raised when the first argument is not a class. *)
Definition issubclass_PydanticBaseModel (a : annotation) : option bool :=
  match a with
  | ann_empty => Some false
  | ann_class _ b => Some b
  | ann_not_a_class _ => None
  end.

Definition is_pydantic (a : annotation) : bool :=
  match issubclass_PydanticBaseModel a with
  | Some b => b
  | None => false
  end.

(** The calls [invoke_handler] makes, in order. *)
Inductive call : Type :=
| CallDeserialize (buf : bytes)
| CallFn (args : list pyobj)
| CallSerialize (v : pyobj).

(** A computation that records the calls it makes and stops at the first
    raise. *)
Definition traced (A : Type) : Type := (outcome A * list call)%type.

#[export] Instance traced_ret : MRet traced := λ A a, (Return a, []).

#[export] Instance traced_bind : MBind traced := λ A B k m,
  match m with
  | (Raise e, t) => (Raise e, t)
  | (Return a, t) => let '(r, t') := k a in (r, t ++ t')
  end.

Definition do_call {A : Type} (c : call) (r : outcome A) : traced A := (r, [c]).

(** [try: body except Exception as e: raise handler(e)]. *)
Definition try_except {A : Type} (body : traced A) (handler : exn → exn)
  : traced A :=
  match body with
  | (Raise e, t) => (Raise (handler e), t)
  | (Return a, t) => (Return a, t)
  end.

Section Handlers.

(** [RESTATE_UNIQUE_HANDLER_SYMBOL = str(object())], fixed when the
    module is imported. *)
Variable RESTATE_UNIQUE_HANDLER_SYMBOL : string.

(** The codec of [restate.serde.PydanticJsonSerde], which is not under
    src. *)
Variable pydantic_deserialize : annotation → bytes → outcome pyobj.
Variable pydantic_serialize : annotation → pyobj → outcome bytes.

Definition PydanticJsonSerde (model : annotation) : Serde :=
  {| serde_cls := cls_PydanticJsonSerde model;
     deserialize := pydantic_deserialize model;
     serialize := pydantic_serialize model |}.

(** [extract_io_type_hints(handler_io, signature)]: every statement is an
    attribute read or write on the shared [handler_io] object. *)
Definition extract_io_type_hints (handler_io : ref) (signature : Signature)
  : M unit :=
  match last (parameters signature) with
  | None => raise (IndexError "list index out of range")
  | Some p =>
      let annotation := param_annotation p in
      update_io handler_io
        (set_input_type
           (Some {| th_annotation := Some annotation;
                    th_is_pydantic := false |}));;
      (if is_pydantic annotation then
         update_io handler_io (λ io, set_input_type (mark_pydantic (input_type io)) io);;
         io ← get_io handler_io;
         if isinstance_GeneralSerde (input_serde io) then
           update_io handler_io (set_input_serde (PydanticJsonSerde annotation))
         else mret ()
       else mret ());;
      let annotation := return_annotation signature in
      update_io handler_io
        (set_output_type
           (Some {| th_annotation := Some annotation;
                    th_is_pydantic := false |}));;
      (if is_pydantic annotation then
         update_io handler_io (λ io, set_output_type (mark_pydantic (output_type io)) io);;
         io ← get_io handler_io;
         if isinstance_GeneralSerde (output_serde io) then
           update_io handler_io (set_output_serde (PydanticJsonSerde annotation))
         else mret ()
       else mret ())
  end.

(** [not handler_name] for [name: str | None]. *)
Definition no_name (n : option string) : bool :=
  match n with
  | None => true
  | Some s => String.eqb s EmptyString
  end.

(** [make_handler(service_tag, handler_io, name, kind, wrapped, signature)]. *)
Definition make_handler (service_tag : ServiceTag) (handler_io : ref)
    (name : option string) (kind : option handler_kind)
    (wrapped : Function) (signature : Signature) : M ref :=
  let handler_name := name in
  let handler_name :=
    if no_name handler_name then Some (fn_name wrapped) else handler_name in
  if no_name handler_name then
    raise (ValueError "Handler name must be provided")
  else if Nat.eqb (length (parameters signature)) 0 then
    raise (ValueError "Handler must have at least one parameter")
  else
    let arity := Z.of_nat (length (parameters signature)) in
    extract_io_type_hints handler_io signature;;
    handler ← new_handler
      {| service_tag := service_tag;
         handler_io := handler_io;
         kind := kind;
         name := default EmptyString handler_name; (* a non-empty [str] on this path *)
         fn := wrapped;
         arity := arity |};
    set_var wrapped RESTATE_UNIQUE_HANDLER_SYMBOL (AttrHandler handler);;
    mret handler.

(** [handler_from_callable(wrapper)]: the [KeyError] of the dictionary
    lookup is turned into a [ValueError]. *)
Definition handler_from_callable (wrapper : Function) : M attr :=
  λ w, match vars w wrapper !! RESTATE_UNIQUE_HANDLER_SYMBOL with
       | Some a => Some (Return a, w)
       | None => Some (Raise (ValueError "Handler not found"), w)
       end.

(** [invoke_handler(handler, ctx, in_buffer)].  The awaited user function
    is seen from the caller: it returns or raises; what it does to the
    store in between is its own business and is not modelled.  The result
    also lists the calls made. *)
Definition invoke_handler (w : World) (handler : ref) (ctx : pyobj)
    (in_buffer : bytes) : option (traced bytes) :=
  h ← handlers w !! handler;
  io ← handler_ios w !! handler_io h;
  Some (
    out_arg ←
      (if Z.eqb (arity h) 2 then
         in_arg ← try_except
           (do_call (CallDeserialize in_buffer)
              (deserialize (input_serde io) in_buffer))
           (λ e, TerminalError
                   ("Unable to parse an input argument. " +:+ exn_str e)
                   (Some e));
         do_call (CallFn [ctx; in_arg]) (fn_call (fn h) [ctx; in_arg])
       else
         do_call (CallFn [ctx]) (fn_call (fn h) [ctx]));
    out_buffer ← do_call (CallSerialize out_arg)
                   (serialize (output_serde io) out_arg);
    mret out_buffer).

(** A registration request, and a run of registrations in order. *)
Record registration : Type :=
  { reg_service_tag : ServiceTag;
    reg_handler_io : ref;
    reg_name : option string;
    reg_kind : option handler_kind;
    reg_wrapped : Function;
    reg_signature : Signature }.

Definition register (r : registration) : M ref :=
  make_handler (reg_service_tag r) (reg_handler_io r) (reg_name r)
    (reg_kind r) (reg_wrapped r) (reg_signature r).

Fixpoint register_all (rs : list registration) (w : World) : option World :=
  match rs with
  | [] => Some w
  | r :: rs' =>
      match register r w with
      | None => None
      | Some (_, w') => register_all rs' w'
      end
  end.

End Handlers.

End Handlers.

(** ** Concrete objects on which the statements below are run *)

Module Examples.
Import Python Handlers.

(** A value [str(object())] can take. *)
Definition symbol : string := "<object object at 0x7f3a5c1d2e90>".

(** Modelled from the spec: [restate.serde.GeneralSerde] is not under src.
    The spec only says that it is the default general-purpose serializer
    with a fixed content type; this instance is its JSON codec restricted
    to integers, which is all the scenarios need. *)
Definition json_loads (buf : bytes) : outcome pyobj :=
  match DecimalString.NilZero.int_of_string (string_of_list_byte buf) with
  | Some d => Return (PyInt (Z.of_int d))
  | None => Raise (OtherException "JSONDecodeError" "Expecting value")
  end.

Definition json_dumps (v : pyobj) : outcome bytes :=
  match v with
  | PyInt n =>
      Return (list_byte_of_string (DecimalString.NilZero.string_of_int (Z.to_int n)))
  | _ => Raise (TypeError "Object is not JSON serializable")
  end.

Definition GeneralSerde : Serde :=
  {| serde_cls := cls_GeneralSerde;
     deserialize := json_loads;
     serialize := json_dumps |}.

(** A serde supplied by the user. *)
Definition BytesSerde : Serde :=
  {| serde_cls := cls_CustomSerde "BytesSerde";
     deserialize := λ buf, Return (PyBytes buf);
     serialize := λ v, match v with
                       | PyBytes b => Return b
                       | _ => Raise (TypeError "expected bytes")
                       end |}.

(** A stand-in for the Pydantic codec: validation accepts integers only. *)
Definition model_validate_json (model : annotation) (buf : bytes) : outcome pyobj :=
  match json_loads buf with
  | Return v => Return v
  | Raise _ => Raise (OtherException "ValidationError" "1 validation error")
  end.

Definition model_dump_json (model : annotation) (v : pyobj) : outcome bytes :=
  json_dumps v.

Definition default_io : HandlerIO :=
  {| accept := "application/json";
     content_type := "application/json";
     input_serde := GeneralSerde;
     output_serde := GeneralSerde;
     input_type := None;
     output_type := None |}.

Definition custom_io : HandlerIO :=
  {| accept := "application/octet-stream";
     content_type := "application/octet-stream";
     input_serde := BytesSerde;
     output_serde := GeneralSerde;
     input_type := None;
     output_type := None |}.

(** A process with two [HandlerIO] objects and nothing registered. *)
Definition world0 : World :=
  {| handler_ios := {[ 1%positive := default_io; 2%positive := custom_io ]};
     handlers := ∅;
     fn_dicts := ∅ |}.

Definition greeter : ServiceTag := {| tag_kind := kind_service; tag_name := "greeter" |}.

Definition ctx : pyobj := PyObject "ObjectContext" true.

(** [async def double(ctx, payload: int) -> int: return 2 * payload] *)
Definition double : Function :=
  {| fn_id := 11;
     fn_name := "double";
     fn_call := λ args,
       match args with
       | [_; PyInt n] => Return (PyInt (2 * n))
       | [_; _] => Raise (TypeError "unsupported operand type(s) for *")
       | _ => Raise (TypeError "double() missing 1 required positional argument")
       end |}.

(** [async def ping(ctx): return 1] *)
Definition ping : Function :=
  {| fn_id := 12;
     fn_name := "ping";
     fn_call := λ args,
       match args with
       | [_] => Return (PyInt 1)
       | _ => Raise (TypeError "ping() takes 1 positional argument")
       end |}.

(** [async def fail(ctx, payload: int) -> int: raise KeyError("k")] *)
Definition fail : Function :=
  {| fn_id := 13;
     fn_name := "fail";
     fn_call := λ _, Raise (OtherException "KeyError" "'k'") |}.

(** A function object whose [__name__] was cleared. *)
Definition nameless : Function :=
  {| fn_id := 14; fn_name := EmptyString; fn_call := λ _, Return PyNone |}.

(** [async def add(ctx, a: int, b: int) -> int] *)
Definition add3 : Function :=
  {| fn_id := 15;
     fn_name := "add";
     fn_call := λ args,
       match args with
       | [_; PyInt a; PyInt b] => Return (PyInt (a + b))
       | _ => Raise (TypeError "add() missing required positional arguments")
       end |}.

Definition int_class : annotation := ann_class "int" false.
Definition Greeting : annotation := ann_class "Greeting" true.

Definition param (n : string) (a : annotation) : SigParameter :=
  {| param_name := n; param_annotation := a |}.

Definition sig_int_int : Signature :=
  {| parameters := [param "ctx" ann_empty; param "payload" int_class];
     return_annotation := int_class |}.

Definition sig_ctx_only : Signature :=
  {| parameters := [param "ctx" ann_empty]; return_annotation := ann_empty |}.

Definition sig_model_in : Signature :=
  {| parameters := [param "ctx" ann_empty; param "req" Greeting];
     return_annotation := int_class |}.

Definition sig_three : Signature :=
  {| parameters := [param "ctx" ann_empty; param "a" int_class; param "b" int_class];
     return_annotation := int_class |}.

Definition sig_none : Signature :=
  {| parameters := []; return_annotation := ann_empty |}.

Definition make := make_handler symbol model_validate_json model_dump_json.

(** The store a computation leaves, or the one it started from if it did
    not run. *)
Definition store_after {A : Type} (m : M A) (w : World) : World :=
  match m w with
  | Some (_, w') => w'
  | None => w
  end.

(** [double] registered with the default [HandlerIO]. *)
Definition world_double : World :=
  store_after (make greeter 1%positive None (Some kind_exclusive) double sig_int_int) world0.

(** [ping] registered as well. *)
Definition world_ping : World :=
  store_after (make greeter 1%positive (Some "p") None ping sig_ctx_only) world_double.

(** [fail] registered as well. *)
Definition world_fail : World :=
  store_after (make greeter 1%positive None None fail sig_int_int) world_ping.

(** The bytes [b"5"] and [b"10"], and a buffer that is not JSON. *)
Definition five : bytes := [Byte.x35].
Definition ten : bytes := [Byte.x31; Byte.x30].
Definition garbage : bytes := [Byte.x7b].

(** The three descriptors, and the shared [HandlerIO] as the last
    registration left it. *)
Definition double_descriptor : Handler :=
  {| service_tag := greeter; handler_io := 1%positive;
     kind := Some kind_exclusive; name := "double"; fn := double; arity := 2 |}.

Definition ping_descriptor : Handler :=
  {| service_tag := greeter; handler_io := 1%positive;
     kind := None; name := "p"; fn := ping; arity := 1 |}.

Definition fail_descriptor : Handler :=
  {| service_tag := greeter; handler_io := 1%positive;
     kind := None; name := "fail"; fn := fail; arity := 2 |}.

Definition int_hint : option TypeHint :=
  Some {| th_annotation := Some int_class; th_is_pydantic := false |}.

Definition registered_io : HandlerIO :=
  set_output_type int_hint (set_input_type int_hint default_io).

End Examples.

(** ** More objects for the statements on the rest of the code *)

Module MoreExamples.
Import Python Handlers Examples.

(** A second Pydantic model. *)
Definition Farewell : annotation := ann_class "Farewell" true.

Definition sig_farewell : Signature :=
  {| parameters := [param "ctx" ann_empty; param "req" Farewell];
     return_annotation := int_class |}.

(** [async def greet(ctx, req: Greeting) -> int] and
    [async def leave(ctx, req: Farewell) -> int]; the validated payload is
    an integer in the stand-in codec. *)
Definition greet : Function :=
  {| fn_id := 21;
     fn_name := "greet";
     fn_call := λ args,
       match args with
       | [_; PyInt n] => Return (PyInt (n + 1))
       | _ => Raise (TypeError "greet() missing 1 required positional argument")
       end |}.

Definition leave : Function :=
  {| fn_id := 22;
     fn_name := "leave";
     fn_call := λ args,
       match args with
       | [_; PyInt n] => Return (PyInt (n - 1))
       | _ => Raise (TypeError "leave() missing 1 required positional argument")
       end |}.

(** A [HandlerIO] whose output serde only takes bytes. *)
Definition bytes_out_io : HandlerIO :=
  {| accept := "application/json";
     content_type := "application/octet-stream";
     input_serde := GeneralSerde;
     output_serde := BytesSerde;
     input_type := None;
     output_type := None |}.

Definition world_bytes_out : World :=
  {| handler_ios := {[ 3%positive := bytes_out_io ]};
     handlers := ∅;
     fn_dicts := ∅ |}.

Definition registrations (l : ref) (rs : list (Function * Signature))
  : list registration :=
  map (λ r, {| reg_service_tag := greeter; reg_handler_io := l;
               reg_name := None; reg_kind := None;
               reg_wrapped := r.1; reg_signature := r.2 |}) rs.

Definition run := register_all symbol model_validate_json model_dump_json.

(** The store a run leaves, or the one it started from if it did not
    run. *)
Definition store_after_all (rs : list registration) (w : World) : World :=
  default w (run rs w).

End MoreExamples.

(** * Properties of the VM wrapper *)

Module VmFacts.
Import Python Vm.

Section Classification.
Variable PyVM : Type.
Variable engine : PyVM → pyobj → outcome pyobj * PyVM.
Variable str : pyobj → string.

Local Abbreviation poll := (take_async_result engine str).

(** What one poll returns when the engine answers [r]. *)
Lemma take_async_result_unfold self handle r vm' :
  engine (vm self) handle = (Return r, vm') →
  poll self handle =
    (if negb (truthy r) then Return NOT_READY
     else match r with
          | PyVoid => Return AsyncNone
          | PyBytes b => Return (AsyncBytes b)
          | PyFailure c m => Return (AsyncFailure {| code := c; message := m |})
          | PySuspended => Raise SUSPENDED
          | _ => Raise (ValueError ("Unknown result type: " +:+ str r))
          end,
     {| vm := vm' |}).
Proof.
  intros H. unfold take_async_result. rewrite H.
  destruct (truthy r); simpl; [destruct r|]; reflexivity.
Qed.

(** The engine has not resolved the handle: [NOT_READY]. *)
Lemma take_async_result_absent self handle vm' :
  engine (vm self) handle = (Return PyNone, vm') →
  poll self handle = (Return NOT_READY, {| vm := vm' |}).
Proof. intros H. by rewrite (take_async_result_unfold _ _ _ _ H). Qed.

(** A void success: [None]. *)
Lemma take_async_result_void self handle vm' :
  engine (vm self) handle = (Return PyVoid, vm') →
  poll self handle = (Return AsyncNone, {| vm := vm' |}).
Proof. intros H. by rewrite (take_async_result_unfold _ _ _ _ H). Qed.

(** A bytes value with at least one byte comes back as it is. *)
Lemma take_async_result_bytes self handle vm' b :
  b ≠ [] →
  engine (vm self) handle = (Return (PyBytes b), vm') →
  poll self handle = (Return (AsyncBytes b), {| vm := vm' |}).
Proof.
  intros Hb H. rewrite (take_async_result_unfold _ _ _ _ H).
  by destruct b.
Qed.

(** A failure keeps the engine's code and message. *)
Lemma take_async_result_failure self handle vm' c m :
  engine (vm self) handle = (Return (PyFailure c m), vm') →
  poll self handle =
    (Return (AsyncFailure {| code := c; message := m |}), {| vm := vm' |}).
Proof. intros H. by rewrite (take_async_result_unfold _ _ _ _ H). Qed.

(** A suspension is raised, not returned. *)
Lemma take_async_result_suspended self handle vm' :
  engine (vm self) handle = (Return PySuspended, vm') →
  poll self handle = (Raise SUSPENDED, {| vm := vm' |}).
Proof. intros H. by rewrite (take_async_result_unfold _ _ _ _ H). Qed.

(** A result of no known class raises, as long as it is true. *)
Lemma take_async_result_unknown_true self handle vm' r :
  truthy r = true →
  r ≠ PyVoid → (∀ b, r ≠ PyBytes b) → (∀ c m, r ≠ PyFailure c m) →
  r ≠ PySuspended →
  engine (vm self) handle = (Return r, vm') →
  poll self handle =
    (Raise (ValueError ("Unknown result type: " +:+ str r)), {| vm := vm' |}).
Proof.
  intros Ht Hv Hb Hf Hs H. rewrite (take_async_result_unfold _ _ _ _ H), Ht.
  simpl. destruct r; try reflexivity; exfalso;
    [by eapply Hb | by apply Hv | by eapply Hf | by apply Hs].
Qed.

(** Whatever is false is reported as not ready, whatever its class. *)
Lemma take_async_result_false self handle vm' r :
  truthy r = false →
  engine (vm self) handle = (Return r, vm') →
  poll self handle = (Return NOT_READY, {| vm := vm' |}).
Proof. intros Ht H. by rewrite (take_async_result_unfold _ _ _ _ H), Ht. Qed.

(** An error of the engine call itself passes through. *)
Lemma take_async_result_engine_raises self handle vm' e :
  engine (vm self) handle = (Raise e, vm') →
  poll self handle = (Raise e, {| vm := vm' |}).
Proof. intros H. unfold take_async_result. by rewrite H. Qed.

End Classification.

(** C1, at the input where the code departs from it: the engine resolved
    the handle with the empty bytes value, and [take_async_result] answers
    [NOT_READY] instead of the bytes success carrying it.  The other
    cases of the classification are the lemmas of the section above. *)
Theorem take_async_result_empty_bytes_not_ready
    (str : pyobj → string) (handle : pyobj) :
  take_async_result (answering (PyBytes [])) str {| vm := () |} handle
    = (Return NOT_READY, {| vm := () |})
  ∧ take_async_result (answering (PyBytes [])) str {| vm := () |} handle
    ≠ (Return (AsyncBytes []), {| vm := () |}).
Proof. split; [reflexivity | discriminate]. Qed.

(** C9, at the input where the code departs from it: the engine answers
    the integer [0], which is none of the known shapes, and
    [take_async_result] answers [NOT_READY] instead of raising. *)
Theorem take_async_result_unknown_false_not_ready
    (str : pyobj → string) (handle : pyobj) :
  take_async_result (answering (PyInt 0)) str {| vm := () |} handle
    = (Return NOT_READY, {| vm := () |})
  ∧ ∀ e, take_async_result (answering (PyInt 0)) str {| vm := () |} handle
         ≠ (Raise e, {| vm := () |}).
Proof. split; [reflexivity | discriminate]. Qed.

End VmFacts.

(** * Properties of registration and invocation *)

Module HandlerFacts.
Import Python Handlers.

Section Registration.
Variable SYM : string.
Variable pydantic_deserialize : annotation → bytes → outcome pyobj.
Variable pydantic_serialize : annotation → pyobj → outcome bytes.

Local Abbreviation Pydantic := (PydanticJsonSerde pydantic_deserialize pydantic_serialize).
Local Abbreviation extract := (extract_io_type_hints pydantic_deserialize pydantic_serialize).
Local Abbreviation make := (make_handler SYM pydantic_deserialize pydantic_serialize).
Local Abbreviation lookup_handler := (handler_from_callable SYM).

(** The [HandlerIO] object [io] once the hints of [sg], whose last
    parameter is [p], have been extracted into it. *)
Local Abbreviation io_after sg p io :=
  {| accept := accept io;
     content_type := content_type io;
     input_serde :=
       if is_pydantic (param_annotation p)
          && isinstance_GeneralSerde (input_serde io)
       then Pydantic (param_annotation p)
       else input_serde io;
     output_serde :=
       if is_pydantic (return_annotation sg)
          && isinstance_GeneralSerde (output_serde io)
       then Pydantic (return_annotation sg)
       else output_serde io;
     input_type :=
       Some {| th_annotation := Some (param_annotation p);
               th_is_pydantic := is_pydantic (param_annotation p) |};
     output_type :=
       Some {| th_annotation := Some (return_annotation sg);
               th_is_pydantic := is_pydantic (return_annotation sg) |} |}.

(** The state of the [HandlerIO] object after [extract_io_type_hints]. *)
Lemma extract_io_type_hints_run l sg w io p :
  handler_ios w !! l = Some io →
  last (parameters sg) = Some p →
  extract l sg w =
    Some (Return (),
          {| handler_ios := <[l := io_after sg p io]> (handler_ios w);
             handlers := handlers w;
             fn_dicts := fn_dicts w |}).
Proof.
  intros Hio Hp. unfold extract_io_type_hints. rewrite Hp.
  destruct io as [ac ct si so ti to]; simpl.
  unfold mbind, M_bind, mret, M_ret, update_io, get_io.
  destruct (is_pydantic (param_annotation p));
    destruct (is_pydantic (return_annotation sg));
    destruct (isinstance_GeneralSerde si) eqn:Gin;
    destruct (isinstance_GeneralSerde so) eqn:Gout; simpl;
    repeat (rewrite ?Hio, ?lookup_insert_eq; simpl; rewrite ?Gin, ?Gout; simpl);
    rewrite ?insert_insert_eq; reflexivity.
Qed.

Local Abbreviation resolved nm f :=
  (if no_name nm then Some (fn_name f) else nm).

Lemma extract_io_type_hints_dangling l sg w :
  handler_ios w !! l = None → parameters sg ≠ [] → extract l sg w = None.
Proof.
  intros Hio Hp. unfold extract_io_type_hints.
  destruct (last (parameters sg)) as [p|] eqn:E.
  - unfold mbind, M_bind, update_io. by rewrite Hio.
  - apply last_None in E. congruence.
Qed.

Lemma last_length_pos {A} (l : list A) x :
  last l = Some x → Nat.eqb (length l) 0 = false.
Proof. destruct l; [discriminate | reflexivity]. Qed.

(** A registration that passes both checks on a live [HandlerIO]. *)
Lemma make_handler_run tag l nm k f sg w io p :
  handler_ios w !! l = Some io →
  last (parameters sg) = Some p →
  no_name (resolved nm f) = false →
  make tag l nm k f sg w =
    Some (Return (fresh (dom (handlers w))),
          {| handler_ios := <[l := io_after sg p io]> (handler_ios w);
             handlers :=
               <[fresh (dom (handlers w)) :=
                   {| service_tag := tag; handler_io := l; kind := k;
                      name := default EmptyString (resolved nm f);
                      fn := f;
                      arity := Z.of_nat (length (parameters sg)) |}]>
                 (handlers w);
             fn_dicts :=
               <[fn_id f :=
                   <[SYM := AttrHandler (fresh (dom (handlers w)))]> (vars w f)]>
                 (fn_dicts w) |}).
Proof.
  intros Hio Hp Hn. unfold make_handler.
  rewrite Hn, (last_length_pos _ _ Hp).
  unfold mbind at 1, M_bind at 1.
  rewrite (extract_io_type_hints_run _ _ _ _ _ Hio Hp).
  reflexivity.
Qed.

(** The only ways [make_handler] ends. *)
Lemma make_handler_cases tag l nm k f sg w :
  (no_name (resolved nm f) = true ∧
   make tag l nm k f sg w =
     Some (Raise (ValueError "Handler name must be provided"), w))
  ∨ (no_name (resolved nm f) = false ∧ parameters sg = [] ∧
     make tag l nm k f sg w =
       Some (Raise (ValueError "Handler must have at least one parameter"), w))
  ∨ (no_name (resolved nm f) = false ∧ parameters sg ≠ [] ∧
     handler_ios w !! l = None ∧ make tag l nm k f sg w = None)
  ∨ (no_name (resolved nm f) = false ∧
     ∃ io p, handler_ios w !! l = Some io ∧ last (parameters sg) = Some p).
Proof.
  destruct (no_name (resolved nm f)) eqn:Hn.
  { left. split; [done|]. unfold make_handler. by rewrite Hn. }
  right. destruct (parameters sg) as [|q qs] eqn:Hp.
  { left. repeat split; try done. unfold make_handler. by rewrite Hn, Hp. }
  right. destruct (handler_ios w !! l) as [io|] eqn:Hio.
  - right. split; [done|]. exists io.
    destruct (last (q :: qs)) as [p|] eqn:E.
    + by exists p.
    + by apply last_None in E.
  - left. repeat split; try done. unfold make_handler.
    rewrite Hn. replace (Nat.eqb (length (parameters sg)) 0) with false
      by (by rewrite Hp).
    unfold mbind at 1, M_bind at 1.
    rewrite extract_io_type_hints_dangling; [done | done | by rewrite Hp].
Qed.

(** What a successful registration did. *)
Lemma make_handler_inv tag l nm k f sg w h w' :
  make tag l nm k f sg w = Some (Return h, w') →
  ∃ io p,
    handler_ios w !! l = Some io ∧ last (parameters sg) = Some p ∧
    no_name (resolved nm f) = false ∧
    h = fresh (dom (handlers w)) ∧
    w' = {| handler_ios := <[l := io_after sg p io]> (handler_ios w);
            handlers :=
              <[h := {| service_tag := tag; handler_io := l; kind := k;
                        name := default EmptyString (resolved nm f);
                        fn := f;
                        arity := Z.of_nat (length (parameters sg)) |}]>
                (handlers w);
            fn_dicts :=
              <[fn_id f := <[SYM := AttrHandler h]> (vars w f)]> (fn_dicts w) |}.
Proof.
  intros H.
  destruct (make_handler_cases tag l nm k f sg w)
    as [[_ E]|[(_ & _ & E)|[(_ & _ & _ & E)|(Hn & io & p & Hio & Hp)]]];
    try congruence.
  rewrite (make_handler_run _ _ _ _ _ _ _ _ _ Hio Hp Hn) in H.
  injection H as <- <-. by exists io, p.
Qed.

(** A raising registration leaves the store alone. *)
Lemma make_handler_raise_inv tag l nm k f sg w e w' :
  make tag l nm k f sg w = Some (Raise e, w') → w' = w.
Proof.
  intros H.
  destruct (make_handler_cases tag l nm k f sg w)
    as [[_ E]|[(_ & _ & E)|[(_ & _ & _ & E)|(Hn & io & p & Hio & Hp)]]];
    try congruence.
  by rewrite (make_handler_run _ _ _ _ _ _ _ _ _ Hio Hp Hn) in H.
Qed.

(** [handler_from_callable] reads the store and leaves it as it is. *)
Lemma handler_from_callable_run f w :
  lookup_handler f w =
    Some (match vars w f !! SYM with
          | Some a => Return a
          | None => Raise (ValueError "Handler not found")
          end, w).
Proof. unfold handler_from_callable. by destruct (vars w f !! SYM). Qed.

Lemma vars_insert ios hs ds f d :
  vars {| handler_ios := ios; handlers := hs;
          fn_dicts := <[fn_id f := d]> ds |} f = d.
Proof. unfold vars. cbn [fn_dicts]. by rewrite lookup_insert_eq. Qed.

(** Registering [g] does not touch the [__dict__] of another function. *)
Lemma make_handler_vars_other tag l nm k g sg w o w' f :
  make tag l nm k g sg w = Some (o, w') →
  fn_id g ≠ fn_id f →
  vars w' f = vars w f.
Proof.
  intros H Hne. destruct o as [h|e].
  - apply make_handler_inv in H as (io & p & _ & _ & _ & _ & ->).
    unfold vars; simpl. by rewrite lookup_insert_ne.
  - by apply make_handler_raise_inv in H as ->.
Qed.

Lemma register_all_vars_other rs w w' f :
  register_all SYM pydantic_deserialize pydantic_serialize rs w = Some w' →
  (∀ r, r ∈ rs → fn_id (reg_wrapped r) ≠ fn_id f) →
  vars w' f = vars w f.
Proof.
  revert w. induction rs as [|r rs IH]; intros w H Hrs; simpl in H.
  - by injection H as <-.
  - destruct (register SYM pydantic_deserialize pydantic_serialize r w)
      as [[o w1]|] eqn:E; [|discriminate].
    rewrite (IH w1 H) by (intros r' Hr'; apply Hrs; by right).
    eapply make_handler_vars_other; [exact E|]. apply Hrs. by left.
Qed.

(** Descriptors are never overwritten: a registration only adds one. *)
Lemma make_handler_handlers_kept tag l nm k g sg w o w' h H :
  make tag l nm k g sg w = Some (o, w') →
  handlers w !! h = Some H →
  handlers w' !! h = Some H.
Proof.
  intros Hm Hh. destruct o as [h'|e].
  - apply make_handler_inv in Hm as (io & p & _ & _ & _ & -> & ->).
    cbn [handlers]. rewrite lookup_insert_ne; [done|].
    intros <-. apply (is_fresh (dom (handlers w))).
    apply elem_of_dom. by exists H.
  - by apply make_handler_raise_inv in Hm as ->.
Qed.

Lemma register_all_handlers_kept rs w w' h H :
  register_all SYM pydantic_deserialize pydantic_serialize rs w = Some w' →
  handlers w !! h = Some H →
  handlers w' !! h = Some H.
Proof.
  revert w. induction rs as [|r rs IH]; intros w Hrun Hh; simpl in Hrun.
  - by injection Hrun as <-.
  - destruct (register SYM pydantic_deserialize pydantic_serialize r w)
      as [[o w1]|] eqn:E; [|discriminate].
    apply (IH w1 Hrun). eapply make_handler_handlers_kept; [exact E | exact Hh].
Qed.

(** After a successful registration the descriptor hangs on the function. *)
Lemma make_handler_attached tag l nm k f sg w h w' :
  make tag l nm k f sg w = Some (Return h, w') →
  lookup_handler f w' = Some (Return (AttrHandler h), w').
Proof.
  intros H.
  apply make_handler_inv in H as (io & p & _ & _ & _ & _ & ->).
  rewrite handler_from_callable_run, vars_insert.
  by rewrite lookup_insert_eq.
Qed.

(** The descriptor is a new object, and it is there afterwards. *)
Lemma make_handler_fresh tag l nm k f sg w h w' :
  make tag l nm k f sg w = Some (Return h, w') →
  (h ∉ dom (handlers w)) ∧ (h ∈ dom (handlers w')).
Proof.
  intros H.
  apply make_handler_inv in H as (io & p & _ & _ & _ & -> & ->).
  split; [apply is_fresh|]. cbn [handlers]. rewrite dom_insert_L. set_solver.
Qed.

(** C3: after a successful registration the [HandlerIO] object holds, on
    the input side, the Pydantic serde for the last parameter's
    annotation exactly when that annotation is a Pydantic model and the
    serde was still a [GeneralSerde], and otherwise the serde it held
    before; [is_pydantic] of the input hint tells whether that
    annotation is a Pydantic model.  The output side is the same with
    the return annotation.  Neither side's result mentions the other
    side. *)
Theorem make_handler_selects_serdes tag l nm k f sg w h w' io p :
  make tag l nm k f sg w = Some (Return h, w') →
  handler_ios w !! l = Some io →
  last (parameters sg) = Some p →
  ∃ H io',
    handlers w' !! h = Some H ∧ handler_io H = l ∧
    handler_ios w' !! l = Some io' ∧
    input_serde io' =
      (if is_pydantic (param_annotation p)
          && isinstance_GeneralSerde (input_serde io)
       then Pydantic (param_annotation p) else input_serde io) ∧
    input_type io' =
      Some {| th_annotation := Some (param_annotation p);
              th_is_pydantic := is_pydantic (param_annotation p) |} ∧
    output_serde io' =
      (if is_pydantic (return_annotation sg)
          && isinstance_GeneralSerde (output_serde io)
       then Pydantic (return_annotation sg) else output_serde io) ∧
    output_type io' =
      Some {| th_annotation := Some (return_annotation sg);
              th_is_pydantic := is_pydantic (return_annotation sg) |}.
Proof.
  intros H Hio Hp.
  apply make_handler_inv in H as (io0 & p0 & Hio0 & Hp0 & _ & _ & ->).
  assert (io0 = io) as -> by congruence.
  assert (p0 = p) as -> by congruence.
  eexists _, _; simpl.
  split; [apply lookup_insert_eq|].
  split; [reflexivity|].
  split; [apply lookup_insert_eq|].
  simpl. repeat split.
Qed.

(** C6, amended: a successful registration stores as arity the number
    of declared parameters, which is at least 1, and is 1 or 2 exactly
    when the signature declares at most two parameters.  It is decided
    once and never recomputed: the descriptor found on the function is
    the one that carries it, every later run of registrations (of this
    function again, with whatever signature, or of others) leaves that
    descriptor object and so its arity as they are, and a lookup leaves
    the store as it is. *)
Theorem make_handler_arity tag l nm k f sg w h w' :
  make tag l nm k f sg w = Some (Return h, w') →
  ∃ H,
    handlers w' !! h = Some H ∧
    arity H = Z.of_nat (length (parameters sg)) ∧
    (1 ≤ arity H)%Z ∧
    (arity H = 1 ∨ arity H = 2 ↔ (length (parameters sg) ≤ 2)%nat) ∧
    lookup_handler f w' = Some (Return (AttrHandler h), w') ∧
    (∀ rs w'',
       register_all SYM pydantic_deserialize pydantic_serialize rs w' = Some w'' →
       handlers w'' !! h = Some H) ∧
    (∀ rs w'' g o w3,
       register_all SYM pydantic_deserialize pydantic_serialize rs w' = Some w'' →
       lookup_handler g w'' = Some (o, w3) →
       w3 = w'' ∧ handlers w3 !! h = Some H).
Proof.
  intros H.
  apply make_handler_inv in H as (io & p & _ & Hp & _ & _ & ->).
  eexists. split; [apply lookup_insert_eq|]. cbn [arity].
  apply last_length_pos, Nat.eqb_neq in Hp.
  split; [reflexivity|]. split; [lia|]. split; [lia|].
  split.
  { rewrite handler_from_callable_run, vars_insert.
    by rewrite lookup_insert_eq. }
  assert (∀ rs w'',
            register_all SYM pydantic_deserialize pydantic_serialize rs
              {| handler_ios := <[l:=io_after sg p io]> (handler_ios w);
                 handlers :=
                   <[h:={| service_tag := tag; handler_io := l; kind := k;
                           name := default EmptyString (resolved nm f);
                           fn := f;
                           arity := Z.of_nat (length (parameters sg)) |}]>
                     (handlers w);
                 fn_dicts :=
                   <[fn_id f:=<[SYM:=AttrHandler h]> (vars w f)]> (fn_dicts w) |}
              = Some w'' →
            handlers w'' !! h =
              Some {| service_tag := tag; handler_io := l; kind := k;
                      name := default EmptyString (resolved nm f);
                      fn := f;
                      arity := Z.of_nat (length (parameters sg)) |}) as Hkept.
  { intros rs w'' Hrun.
    eapply register_all_handlers_kept; [exact Hrun|]. apply lookup_insert_eq. }
  split; [exact Hkept|].
  intros rs w'' g o w3 Hrun Hlook.
  rewrite handler_from_callable_run in Hlook. injection Hlook as _ <-.
  split; [reflexivity|]. by apply (Hkept rs).
Qed.

(** C7: after a successful [make_handler] on [f], and after any further
    registrations of other functions, [handler_from_callable f] returns
    the descriptor that was returned, and that descriptor object is as it
    was built; and after any run of registrations, a function that
    carried no descriptor at the start and is not among the registered
    ones makes [handler_from_callable] raise
    [ValueError "Handler not found"]. *)
Theorem handler_from_callable_roundtrip :
  (∀ tag l nm k f sg w h w' rs w'',
      make tag l nm k f sg w = Some (Return h, w') →
      register_all SYM pydantic_deserialize pydantic_serialize rs w' = Some w'' →
      (∀ r, r ∈ rs → fn_id (reg_wrapped r) ≠ fn_id f) →
      lookup_handler f w'' = Some (Return (AttrHandler h), w'') ∧
      ∃ H, handlers w' !! h = Some H ∧ handlers w'' !! h = Some H ∧ fn H = f)
  ∧ (∀ rs w w' f,
      vars w f !! SYM = None →
      register_all SYM pydantic_deserialize pydantic_serialize rs w = Some w' →
      (∀ r, r ∈ rs → fn_id (reg_wrapped r) ≠ fn_id f) →
      lookup_handler f w' = Some (Raise (ValueError "Handler not found"), w')).
Proof.
  split.
  - intros tag l nm k f sg w h w' rs w'' H Hrun Hrs. split.
    + rewrite handler_from_callable_run,
        (register_all_vars_other _ _ _ _ Hrun Hrs).
      apply make_handler_attached in H.
      rewrite handler_from_callable_run in H. by injection H as ->.
    + apply make_handler_inv in H as (io & p & _ & _ & _ & _ & ->).
      eexists. split; [apply lookup_insert_eq|].
      split; [|reflexivity].
      eapply register_all_handlers_kept; [exact Hrun|].
      apply lookup_insert_eq.
  - intros rs w w' f Hnone Hrun Hrs.
    rewrite handler_from_callable_run.
    by rewrite (register_all_vars_other _ _ _ _ Hrun Hrs), Hnone.
Qed.

Lemma no_name_false_inv nm :
  no_name nm = false → ∃ n, nm = Some n ∧ n ≠ EmptyString.
Proof.
  destruct nm as [n|]; [|discriminate]. simpl. intros H.
  exists n. split; [done|]. intros ->. discriminate.
Qed.

Lemma no_name_Some n : n ≠ EmptyString → no_name (Some n) = false.
Proof. intros H. simpl. by apply String.eqb_neq. Qed.

Lemma nonempty_last {A} (l : list A) : l ≠ [] → ∃ x, last l = Some x.
Proof.
  intros H. destruct (last l) as [x|] eqn:E; [by exists x|].
  by apply last_None in E.
Qed.

(** C8: a supplied (non-empty) name becomes the descriptor's name;
    without one, the function's [__name__] does; when that is empty too
    the call raises [ValueError]; and a signature without parameters
    makes the call raise [ValueError]. *)
Theorem make_handler_name tag l nm k f sg w :
  (∀ n io, nm = Some n → n ≠ EmptyString →
     handler_ios w !! l = Some io → parameters sg ≠ [] →
     ∃ h w' H, make tag l nm k f sg w = Some (Return h, w') ∧
               handlers w' !! h = Some H ∧ name H = n)
  ∧ (∀ io, no_name nm = true → fn_name f ≠ EmptyString →
     handler_ios w !! l = Some io → parameters sg ≠ [] →
     ∃ h w' H, make tag l nm k f sg w = Some (Return h, w') ∧
               handlers w' !! h = Some H ∧ name H = fn_name f)
  ∧ (no_name nm = true → fn_name f = EmptyString →
     make tag l nm k f sg w =
       Some (Raise (ValueError "Handler name must be provided"), w))
  ∧ (parameters sg = [] →
     ∃ msg, make tag l nm k f sg w = Some (Raise (ValueError msg), w)).
Proof.
  repeat split.
  - intros n io -> Hn Hio Hp.
    destruct (nonempty_last _ Hp) as [p Hl].
    assert (no_name (resolved (Some n) f) = false) as Hr
      by (by rewrite (no_name_Some _ Hn), (no_name_Some _ Hn)).
    eexists _, _, _. split; [by apply (make_handler_run _ _ _ _ _ _ _ io p)|].
    split; [apply lookup_insert_eq|]. cbn [name].
    by rewrite (no_name_Some _ Hn).
  - intros io Hnm Hf Hio Hp.
    destruct (nonempty_last _ Hp) as [p Hl].
    assert (no_name (resolved nm f) = false) as Hr
      by (rewrite Hnm; by apply no_name_Some).
    eexists _, _, _. split; [by apply (make_handler_run _ _ _ _ _ _ _ io p)|].
    split; [apply lookup_insert_eq|]. cbn [name]. by rewrite Hnm.
  - intros Hnm Hf. unfold make_handler. by rewrite Hnm, Hf.
  - intros Hp.
    destruct (make_handler_cases tag l nm k f sg w)
      as [[_ E]|[(_ & _ & E)|[(_ & ? & _)|(_ & io & p & _ & Hl)]]];
      eauto; [done|]. by rewrite Hp in Hl.
Qed.

(** C10: after two successful registrations of the same function,
    [handler_from_callable] returns the second descriptor, which is a
    different object from the first, and no longer returns the first. *)
Theorem make_handler_again_replaces
    tag1 l1 nm1 k1 sg1 tag2 l2 nm2 k2 sg2 f w h1 w1 h2 w2 :
  make tag1 l1 nm1 k1 f sg1 w = Some (Return h1, w1) →
  make tag2 l2 nm2 k2 f sg2 w1 = Some (Return h2, w2) →
  lookup_handler f w1 = Some (Return (AttrHandler h1), w1) ∧
  lookup_handler f w2 = Some (Return (AttrHandler h2), w2) ∧
  h2 ≠ h1 ∧
  lookup_handler f w2 ≠ Some (Return (AttrHandler h1), w2).
Proof.
  intros H1 H2.
  pose proof (make_handler_attached _ _ _ _ _ _ _ _ _ H1) as Hl1.
  pose proof (make_handler_attached _ _ _ _ _ _ _ _ _ H2) as Hl2.
  assert (h2 ≠ h1) as Hne.
  { apply make_handler_fresh in H1 as [_ Hin].
    apply make_handler_fresh in H2 as [Hout _]. congruence. }
  repeat split; try done.
  rewrite Hl2. congruence.
Qed.

End Registration.

Section Invocation.
Variables (w : World) (handler : ref) (h : Handler) (io : HandlerIO).
Hypothesis Hhandler : handlers w !! handler = Some h.
Hypothesis Hio : handler_ios w !! handler_io h = Some io.

(** The two shapes of an invocation. *)
Lemma invoke_handler_with_payload ctx in_buffer :
  arity h = 2 →
  invoke_handler w handler ctx in_buffer =
    Some (match deserialize (input_serde io) in_buffer with
          | Raise e =>
              (Raise (TerminalError
                        ("Unable to parse an input argument. " +:+ exn_str e)
                        (Some e)),
               [CallDeserialize in_buffer])
          | Return in_arg =>
              match fn_call (fn h) [ctx; in_arg] with
              | Raise e =>
                  (Raise e, [CallDeserialize in_buffer; CallFn [ctx; in_arg]])
              | Return out_arg =>
                  (match serialize (output_serde io) out_arg with
                   | Raise e => Raise e
                   | Return out_buffer => Return out_buffer
                   end,
                   [CallDeserialize in_buffer; CallFn [ctx; in_arg];
                    CallSerialize out_arg])
              end
          end).
Proof.
  intros Ha. unfold invoke_handler.
  rewrite Hhandler; simpl. rewrite Hio; simpl. rewrite Ha; simpl.
  unfold mbind, traced_bind, try_except, do_call, mret, traced_ret.
  destruct (deserialize (input_serde io) in_buffer) as [v|e]; [|done].
  destruct (fn_call (fn h) [ctx; v]) as [r|e]; [|done].
  by destruct (serialize (output_serde io) r).
Qed.

Lemma invoke_handler_without_payload ctx in_buffer :
  arity h ≠ 2 →
  invoke_handler w handler ctx in_buffer =
    Some (match fn_call (fn h) [ctx] with
          | Raise e => (Raise e, [CallFn [ctx]])
          | Return out_arg =>
              (match serialize (output_serde io) out_arg with
               | Raise e => Raise e
               | Return out_buffer => Return out_buffer
               end,
               [CallFn [ctx]; CallSerialize out_arg])
          end).
Proof.
  intros Ha. unfold invoke_handler.
  rewrite Hhandler; simpl. rewrite Hio; simpl.
  apply Z.eqb_neq in Ha. rewrite Ha.
  unfold mbind, traced_bind, do_call, mret, traced_ret.
  destruct (fn_call (fn h) [ctx]) as [r|e]; [|done].
  by destruct (serialize (output_serde io) r).
Qed.

(** C2: for a handler of arity 2, when [deserialize] raises [e] the
    invocation raises a [TerminalError] whose message ends with [str(e)]
    and whose cause is [e], and the only call made is [deserialize];
    when the user function raises [e], the invocation raises that same
    [e]. *)
Theorem invoke_handler_error_policy ctx in_buffer :
  arity h = 2 →
  (∀ e, deserialize (input_serde io) in_buffer = Raise e →
     invoke_handler w handler ctx in_buffer =
       Some (Raise (TerminalError
                      ("Unable to parse an input argument. " +:+ exn_str e)
                      (Some e)),
             [CallDeserialize in_buffer]))
  ∧ (∀ v e, deserialize (input_serde io) in_buffer = Return v →
       fn_call (fn h) [ctx; v] = Raise e →
       invoke_handler w handler ctx in_buffer =
         Some (Raise e, [CallDeserialize in_buffer; CallFn [ctx; v]])).
Proof.
  intros Ha. split.
  - intros e He. by rewrite invoke_handler_with_payload, He.
  - intros v e Hv He. by rewrite invoke_handler_with_payload, Hv, He.
Qed.

(** C4: for a handler of arity 2 whose input deserializes to [v], the
    invocation returns the bytes the output serde produces for the user
    function's result on [(ctx, v)].  In particular, with the general
    serde on both sides, a doubling function and an input that decodes
    to 5, the output decodes to 10. *)
Theorem invoke_handler_returns_serialized_result ctx in_buffer :
  arity h = 2 →
  (∀ v r out,
      deserialize (input_serde io) in_buffer = Return v →
      fn_call (fn h) [ctx; v] = Return r →
      serialize (output_serde io) r = Return out →
      invoke_handler w handler ctx in_buffer =
        Some (Return out,
              [CallDeserialize in_buffer; CallFn [ctx; v]; CallSerialize r]))
  ∧ (∀ s,
      input_serde io = s → output_serde io = s →
      isinstance_GeneralSerde s = true →
      deserialize s in_buffer = Return (PyInt 5) →
      (∀ n, fn_call (fn h) [ctx; PyInt n] = Return (PyInt (2 * n))) →
      (∀ v, ∃ out, serialize s (PyInt v) = Return out ∧
                   deserialize s out = Return (PyInt v)) →
      ∃ out t,
        invoke_handler w handler ctx in_buffer = Some (Return out, t) ∧
        deserialize s out = Return (PyInt 10)).
Proof.
  intros Ha. split.
  - intros v r out Hv Hr Hout.
    by rewrite invoke_handler_with_payload, Hv, Hr, Hout.
  - intros s Hin Hout _ H5 Hdouble Hrt.
    destruct (Hrt 10) as (out & Hser & Hde).
    exists out. eexists.
    rewrite invoke_handler_with_payload, Hin, H5, Hdouble, Hout by done.
    change (2 * 5) with 10. by rewrite Hser.
Qed.

(** C5: for a handler of arity 1, whatever the input buffer, the
    invocation is the user function applied to the context alone,
    followed by the output serde on what it returned: the input serde's
    [deserialize] is not called (no such call is in the trace, and the
    result is the same with any other input serde in its place), and the
    result is the same for every input buffer. *)
Theorem invoke_handler_context_only ctx in_buffer :
  arity h = 1 →
  invoke_handler w handler ctx in_buffer =
    Some (match fn_call (fn h) [ctx] with
          | Raise e => (Raise e, [CallFn [ctx]])
          | Return out_arg =>
              (match serialize (output_serde io) out_arg with
               | Raise e => Raise e
               | Return out_buffer => Return out_buffer
               end,
               [CallFn [ctx]; CallSerialize out_arg])
          end)
  ∧ (∀ r t buf,
       invoke_handler w handler ctx in_buffer = Some (r, t) →
       CallDeserialize buf ∉ t)
  ∧ (∀ s',
       invoke_handler
         {| handler_ios :=
              <[handler_io h := set_input_serde s' io]> (handler_ios w);
            handlers := handlers w;
            fn_dicts := fn_dicts w |}
         handler ctx in_buffer
       = invoke_handler w handler ctx in_buffer)
  ∧ (∀ in_buffer',
       invoke_handler w handler ctx in_buffer' =
       invoke_handler w handler ctx in_buffer).
Proof.
  intros Ha. assert (arity h ≠ 2) as Hne by lia.
  split; [by apply invoke_handler_without_payload|].
  split; [|split].
  - intros r t buf. rewrite invoke_handler_without_payload by done.
    destruct (fn_call (fn h) [ctx]) as [o|e]; intros [= <- <-];
      rewrite ?elem_of_cons, elem_of_nil; intuition congruence.
  - intros s'. unfold invoke_handler. cbn [handlers handler_ios].
    rewrite Hhandler. simpl. rewrite lookup_insert_eq, Hio. simpl.
    apply Z.eqb_neq in Hne. by rewrite Hne.
  - intros b'. by rewrite !invoke_handler_without_payload.
Qed.

End Invocation.


(** ** The statements run on the example objects *)

Import Examples.

(** The integer codec of the example serde is a bijection on its image. *)
Lemma json_roundtrip (n : Z) :
  ∃ out, json_dumps (PyInt n) = Return out ∧ json_loads out = Return (PyInt n).
Proof.
  eexists. split; [reflexivity|]. unfold json_loads.
  rewrite string_of_list_byte_of_string, NilZero.isi.
  - by rewrite DecimalZ.of_to.
  - destruct n; simpl; try discriminate.
    intros [= E]. by apply DecimalPos.Unsigned.to_uint_nonnil in E.
  - destruct n; simpl; try discriminate.
    intros [= E]. by apply DecimalPos.Unsigned.to_uint_nonnil in E.
Qed.

(** Registering a handler whose payload is the Pydantic model [Greeting]
    with the default [HandlerIO]: the input serde becomes the Pydantic
    one, the output serde stays. *)
Lemma make_handler_selects_serdes_witness :
  ∃ io',
    handler_ios
      (store_after (make greeter 1%positive None None double sig_model_in) world0)
      !! 1%positive = Some io' ∧
    input_serde io' = PydanticJsonSerde model_validate_json model_dump_json Greeting ∧
    input_type io' =
      Some {| th_annotation := Some Greeting; th_is_pydantic := true |} ∧
    output_serde io' = GeneralSerde.
Proof.
  destruct (make_handler_selects_serdes symbol model_validate_json model_dump_json
              greeter 1%positive None None double sig_model_in world0 1%positive
              (store_after (make greeter 1%positive None None double sig_model_in) world0)
              default_io (param "req" Greeting))
    as (H & io' & _ & _ & Hio & Hin & Hty & Hout & _).
  - reflexivity.
  - reflexivity.
  - reflexivity.
  - exists io'. repeat split; assumption.
Defined.

(** A three-parameter signature registers with arity 3. *)
Lemma make_handler_arity_witness :
  ∃ H,
    handlers (store_after (make greeter 1%positive None None add3 sig_three) world0)
      !! 1%positive = Some H ∧
    arity H = 3.
Proof.
  destruct (make_handler_arity symbol model_validate_json model_dump_json
              greeter 1%positive None None add3 sig_three world0 1%positive
              (store_after (make greeter 1%positive None None add3 sig_three) world0))
    as (H & HH & Ha & _).
  - reflexivity.
  - exists H. split; [exact HH | exact Ha].
Defined.

(** The arity of a registered descriptor is not always 1 or 2: [add]
    declares three parameters and is registered with arity 3. *)
Lemma make_handler_three_parameters :
  ¬ (∀ tag l nm k f sg w h w' H,
       make tag l nm k f sg w = Some (Return h, w') →
       handlers w' !! h = Some H →
       arity H = 1 ∨ arity H = 2).
Proof.
  intros C.
  destruct (C greeter 1%positive None None add3 sig_three world0 1%positive
              (store_after (make greeter 1%positive None None add3 sig_three) world0)
              {| service_tag := greeter; handler_io := 1%positive; kind := None;
                 name := "add"; fn := add3; arity := 3 |})
    as [E|E]; try discriminate E; reflexivity.
Qed.

(** [double] on a buffer that is not JSON, and [fail] on [b"5"]. *)
Lemma invoke_handler_error_policy_witness :
  invoke_handler world_fail 1%positive ctx garbage =
    Some (Raise (TerminalError
                   "Unable to parse an input argument. Expecting value"
                   (Some (OtherException "JSONDecodeError" "Expecting value"))),
          [CallDeserialize garbage])
  ∧ invoke_handler world_fail 3%positive ctx five =
      Some (Raise (OtherException "KeyError" "'k'"),
            [CallDeserialize five; CallFn [ctx; PyInt 5]]).
Proof.
  split.
  - refine (proj1 (invoke_handler_error_policy world_fail 1%positive
                     double_descriptor registered_io _ _ ctx garbage _)
              (OtherException "JSONDecodeError" "Expecting value") _);
      reflexivity.
  - refine (proj2 (invoke_handler_error_policy world_fail 3%positive
                     fail_descriptor registered_io _ _ ctx five _)
              (PyInt 5) (OtherException "KeyError" "'k'") _ _);
      reflexivity.
Defined.

(** [double] on [b"5"] returns [b"10"]. *)
Lemma invoke_handler_returns_serialized_result_witness :
  invoke_handler world_fail 1%positive ctx five =
    Some (Return ten,
          [CallDeserialize five; CallFn [ctx; PyInt 5]; CallSerialize (PyInt 10)])
  ∧ ∃ out t,
      invoke_handler world_fail 1%positive ctx five = Some (Return out, t) ∧
      json_loads out = Return (PyInt 10).
Proof.
  split.
  - refine (proj1 (invoke_handler_returns_serialized_result world_fail 1%positive
                     double_descriptor registered_io _ _ ctx five _)
              (PyInt 5) (PyInt 10) ten _ _ _);
      reflexivity.
  - refine (proj2 (invoke_handler_returns_serialized_result world_fail 1%positive
                     double_descriptor registered_io _ _ ctx five _)
              GeneralSerde _ _ _ _ _ json_roundtrip);
      reflexivity.
Defined.

(** [ping] takes the context only; the buffer, here not even JSON, is
    never looked at. *)
Lemma invoke_handler_context_only_witness :
  invoke_handler world_fail 2%positive ctx garbage =
    Some (Return [Byte.x31], [CallFn [ctx]; CallSerialize (PyInt 1)])
  ∧ invoke_handler world_fail 2%positive ctx five =
      invoke_handler world_fail 2%positive ctx garbage.
Proof.
  destruct (invoke_handler_context_only world_fail 2%positive
              ping_descriptor registered_io eq_refl eq_refl ctx garbage eq_refl)
    as (Hrun & _ & _ & Hany).
  split; [exact Hrun | exact (Hany five)].
Defined.

(** After [double] and [ping] are registered, [double] still carries its
    descriptor and [fail] carries none. *)
Lemma handler_from_callable_roundtrip_witness :
  handler_from_callable symbol double world_ping =
    Some (Return (AttrHandler 1%positive), world_ping)
  ∧ handler_from_callable symbol fail world_ping =
      Some (Raise (ValueError "Handler not found"), world_ping).
Proof.
  destruct (handler_from_callable_roundtrip symbol model_validate_json model_dump_json)
    as [Hreg Hnot].
  split.
  - apply (Hreg greeter 1%positive None (Some kind_exclusive) double sig_int_int
             world0 1%positive world_double
             [ {| reg_service_tag := greeter; reg_handler_io := 1%positive;
                  reg_name := Some "p"; reg_kind := None;
                  reg_wrapped := ping; reg_signature := sig_ctx_only |} ]).
    + reflexivity.
    + reflexivity.
    + intros r Hr. rewrite elem_of_cons, elem_of_nil in Hr.
      destruct Hr as [->|[]]; discriminate.
  - apply (Hnot
             [ {| reg_service_tag := greeter; reg_handler_io := 1%positive;
                  reg_name := None; reg_kind := Some kind_exclusive;
                  reg_wrapped := double; reg_signature := sig_int_int |};
               {| reg_service_tag := greeter; reg_handler_io := 1%positive;
                  reg_name := Some "p"; reg_kind := None;
                  reg_wrapped := ping; reg_signature := sig_ctx_only |} ]
             world0).
    + reflexivity.
    + reflexivity.
    + intros r Hr. rewrite !elem_of_cons, elem_of_nil in Hr.
      destruct Hr as [->|[->|[]]]; discriminate.
Defined.

(** The four cases of name resolution and of the parameter check. *)
Lemma make_handler_name_witness :
  (∃ h w' H, make greeter 1%positive (Some "p") None ping sig_ctx_only world0
               = Some (Return h, w') ∧
             handlers w' !! h = Some H ∧ name H = "p")
  ∧ (∃ h w' H, make greeter 1%positive (Some EmptyString) None ping sig_ctx_only world0
                 = Some (Return h, w') ∧
               handlers w' !! h = Some H ∧ name H = "ping")
  ∧ make greeter 1%positive None None nameless sig_ctx_only world0 =
      Some (Raise (ValueError "Handler name must be provided"), world0)
  ∧ ∃ msg, make greeter 1%positive None None ping sig_none world0 =
             Some (Raise (ValueError msg), world0).
Proof.
  split; [|split; [|split]].
  - apply (proj1 (make_handler_name symbol model_validate_json model_dump_json
                    greeter 1%positive (Some "p") None ping sig_ctx_only world0)
             "p" default_io); [reflexivity | discriminate | reflexivity | discriminate].
  - apply (proj1 (proj2 (make_handler_name symbol model_validate_json model_dump_json
                    greeter 1%positive (Some EmptyString) None ping sig_ctx_only world0))
             default_io); [reflexivity | discriminate | reflexivity | discriminate].
  - apply (proj1 (proj2 (proj2 (make_handler_name symbol model_validate_json
                    model_dump_json greeter 1%positive None None nameless
                    sig_ctx_only world0)))); reflexivity.
  - apply (proj2 (proj2 (proj2 (make_handler_name symbol model_validate_json
                    model_dump_json greeter 1%positive None None ping
                    sig_none world0)))); reflexivity.
Defined.

(** [double] registered a second time, under another name. *)
Lemma make_handler_again_replaces_witness :
  handler_from_callable symbol double
    (store_after (make greeter 2%positive (Some "twice") None double sig_int_int)
       world_double)
  = Some (Return (AttrHandler 2%positive),
          store_after (make greeter 2%positive (Some "twice") None double sig_int_int)
            world_double)
  ∧ (2 ≠ 1)%positive.
Proof.
  destruct (make_handler_again_replaces symbol model_validate_json model_dump_json
              greeter 1%positive None (Some kind_exclusive) sig_int_int
              greeter 2%positive (Some "twice") None sig_int_int
              double world0 1%positive world_double 2%positive
              (store_after (make greeter 2%positive (Some "twice") None double sig_int_int)
                 world_double))
    as (_ & H2 & Hne & _).
  - reflexivity.
  - reflexivity.
  - split; [exact H2 | exact Hne].
Defined.

End HandlerFacts.

(** * More properties of the VM wrapper *)

Module VmExtra.
Import Python Vm VmFacts.

Section MoreClassification.
Variable PyVM : Type.
Variable engine : PyVM → pyobj → outcome pyobj * PyVM.
Variable str : pyobj → string.

Local Abbreviation poll := (take_async_result engine str).

(** X13: what [take_async_result] reports, the engine has said: [None]
    only for a void success, bytes only for that same bytes value (never
    the empty one), a [Failure] only for a [PyFailure] with that code and
    message, a suspension only for [PySuspended], and the [ValueError]
    only for a true object, which its message names. *)
Theorem take_async_result_sound self handle r vm' :
  engine (vm self) handle = (Return r, vm') →
  (fst (poll self handle) = Return AsyncNone → r = PyVoid)
  ∧ (∀ b, fst (poll self handle) = Return (AsyncBytes b) →
          r = PyBytes b ∧ b ≠ [])
  ∧ (∀ f, fst (poll self handle) = Return (AsyncFailure f) →
          r = PyFailure (code f) (message f))
  ∧ (fst (poll self handle) = Raise SUSPENDED → r = PySuspended)
  ∧ (∀ msg, fst (poll self handle) = Raise (ValueError msg) →
            truthy r = true ∧ msg = "Unknown result type: " +:+ str r).
Proof.
  intros H. rewrite (take_async_result_unfold _ _ _ _ _ _ _ H). cbn [fst].
  unfold SUSPENDED.
  destruct (truthy r) eqn:T; cbn [negb];
    [|repeat split; intros; discriminate].
  split; [destruct r; intros E; try discriminate E; reflexivity|].
  split.
  { destruct r; intros b' E; try discriminate E.
    injection E as <-. split; [reflexivity|]. intros ->. discriminate T. }
  split.
  { destruct r; intros f E; try discriminate E. by injection E as <-. }
  split; [destruct r; intros E; try discriminate E; reflexivity|].
  destruct r; intros msg E; try discriminate E; by injection E as <-.
Qed.

End MoreClassification.

(** The engine answers [b"5"]. *)
Lemma take_async_result_sound_witness :
  PyBytes [Byte.x35] = PyBytes [Byte.x35] ∧ [Byte.x35] ≠ [].
Proof.
  exact (proj1 (proj2 (take_async_result_sound unit
                         (answering (PyBytes [Byte.x35])) (λ _, "?")
                         {| vm := () |} (PyInt 1) (PyBytes [Byte.x35]) ()
                         eq_refl))
           [Byte.x35] eq_refl).
Defined.

End VmExtra.

(** * More properties of registration and invocation *)

Module HandlerExtra.
Import Python Handlers HandlerFacts.

Section MoreRegistration.
Variable SYM : string.
Variable pydantic_deserialize : annotation → bytes → outcome pyobj.
Variable pydantic_serialize : annotation → pyobj → outcome bytes.

Local Abbreviation Pydantic := (PydanticJsonSerde pydantic_deserialize pydantic_serialize).
Local Abbreviation inv := (make_handler_inv SYM pydantic_deserialize pydantic_serialize).
Local Abbreviation cases := (make_handler_cases SYM pydantic_deserialize pydantic_serialize).

(** The serde a side holds after extraction, from the annotation and the
    serde it held. *)
Local Abbreviation chosen a s :=
  (if is_pydantic a && isinstance_GeneralSerde s then Pydantic a else s).

Local Abbreviation hint a :=
  (Some {| th_annotation := Some a; th_is_pydantic := is_pydantic a |}).

(** A serde that was chosen is chosen again. *)
Lemma chosen_again a s : chosen a (chosen a s) = chosen a s.
Proof.
  destruct (is_pydantic a) eqn:P; [|reflexivity].
  destruct (isinstance_GeneralSerde s) eqn:G; simpl; [reflexivity|].
  by rewrite G.
Qed.

(** A serde that is not the general one is kept, whatever the annotation. *)
Lemma chosen_explicit a s : isinstance_GeneralSerde s = false → chosen a s = s.
Proof. intros G. by rewrite G, andb_false_r. Qed.

(** One registration, seen from any [HandlerIO] object of the store. *)
Lemma make_handler_io_step tag l nm k f sg w o w' l' io :
  make_handler SYM pydantic_deserialize pydantic_serialize tag l nm k f sg w
      = Some (o, w') →
  handler_ios w !! l' = Some io →
  ∃ io',
    handler_ios w' !! l' = Some io' ∧
    accept io' = accept io ∧ content_type io' = content_type io ∧
    (isinstance_GeneralSerde (input_serde io) = false →
     input_serde io' = input_serde io) ∧
    (isinstance_GeneralSerde (output_serde io) = false →
     output_serde io' = output_serde io).
Proof.
  intros Hm Hio. destruct o as [h|e].
  - apply inv in Hm as (io0 & p & Hio0 & _ & _ & _ & ->). cbn [handler_ios].
    destruct (decide (l = l')) as [<-|Hne].
    + assert (io0 = io) as -> by congruence.
      eexists. split; [apply lookup_insert_eq|]. cbn.
      repeat split; intros G; by rewrite G, andb_false_r.
    + exists io. by rewrite lookup_insert_ne.
  - apply make_handler_raise_inv in Hm as ->. by exists io.
Qed.

Lemma register_all_io_steps rs w w' l io :
  register_all SYM pydantic_deserialize pydantic_serialize rs w = Some w' →
  handler_ios w !! l = Some io →
  ∃ io',
    handler_ios w' !! l = Some io' ∧
    accept io' = accept io ∧ content_type io' = content_type io ∧
    (isinstance_GeneralSerde (input_serde io) = false →
     input_serde io' = input_serde io) ∧
    (isinstance_GeneralSerde (output_serde io) = false →
     output_serde io' = output_serde io).
Proof.
  revert w io. induction rs as [|r rs IH]; intros w io Hrun Hio; simpl in Hrun.
  - injection Hrun as <-. by exists io.
  - destruct (register SYM pydantic_deserialize pydantic_serialize r w)
      as [[o w1]|] eqn:E; [|discriminate].
    destruct (make_handler_io_step _ _ _ _ _ _ _ _ _ _ _ E Hio)
      as (io1 & Hio1 & Ha & Hc & Hin & Hout).
    destruct (IH w1 io1 Hrun Hio1) as (io' & Hio' & Ha' & Hc' & Hin' & Hout').
    exists io'. split; [done|]. split; [congruence|]. split; [congruence|].
    split; intros G.
    + rewrite Hin' by (by rewrite Hin). by apply Hin.
    + rewrite Hout' by (by rewrite Hout). by apply Hout.
Qed.

(** X1: for a function object as [wrapped] (an object with a [__name__]
    string and a [__dict__], which is what [Function] stands for), when
    [make_handler] raises, it raises one of its two [ValueError]s and
    nothing else (the [IndexError] of [extract_io_type_hints] cannot come
    out), and the store is exactly as it was: the [HandlerIO] is not
    touched and nothing is attached. *)
Theorem make_handler_raises_only_value_errors tag l nm k f sg w e w' :
  make_handler SYM pydantic_deserialize pydantic_serialize tag l nm k f sg w
      = Some (Raise e, w') →
  w' = w ∧
  (e = ValueError "Handler name must be provided" ∨
   e = ValueError "Handler must have at least one parameter").
Proof.
  intros H.
  destruct (cases tag l nm k f sg w)
    as [[_ E]|[(_ & _ & E)|[(_ & _ & _ & E)|(Hn & io & p & Hio & Hp)]]].
  - rewrite E in H. injection H as <- <-. auto.
  - rewrite E in H. injection H as <- <-. auto.
  - congruence.
  - by rewrite (make_handler_run _ _ _ _ _ _ _ _ _ _ _ _ Hio Hp Hn) in H.
Qed.

(** X2: for a function object as [wrapped] (an object with a [__name__]
    string and a [__dict__]) and a live [HandlerIO], [make_handler]
    returns a descriptor exactly when a name is available (a non-empty
    [name] or a non-empty [__name__]) and the signature declares at least
    one parameter. *)
Theorem make_handler_succeeds_iff tag l nm k f sg w io :
  handler_ios w !! l = Some io →
  (∃ h w', make_handler SYM pydantic_deserialize pydantic_serialize tag l nm k f sg w
      = Some (Return h, w'))
  ↔ (no_name nm = false ∨ fn_name f ≠ EmptyString) ∧ parameters sg ≠ [].
Proof.
  intros Hio. split.
  - intros (h & w' & H).
    apply inv in H as (_ & p & _ & Hp & Hn & _). split.
    + destruct (no_name nm) eqn:E; [right|by left].
      simpl in Hn. intros E'. by rewrite E' in Hn.
    + intros E. by rewrite E in Hp.
  - intros [Hn Hp]. destruct (nonempty_last _ Hp) as [p Hl].
    eexists _, _. apply (make_handler_run _ _ _ _ _ _ _ _ _ _ io p Hio Hl).
    destruct Hn as [Hn|Hn]; [by rewrite Hn|].
    destruct (no_name nm) eqn:E; [by apply no_name_Some | exact E].
Qed.


(** X3: no run of registrations changes the [accept] and [content_type]
    of a [HandlerIO] object, and the object stays in the store. *)
Theorem register_all_keeps_content_types rs w w' l io :
  register_all SYM pydantic_deserialize pydantic_serialize rs w = Some w' →
  handler_ios w !! l = Some io →
  ∃ io', handler_ios w' !! l = Some io' ∧
         accept io' = accept io ∧ content_type io' = content_type io.
Proof.
  intros Hrun Hio.
  destruct (register_all_io_steps _ _ _ _ _ Hrun Hio) as (io' & ? & ? & ? & _).
  by exists io'.
Qed.

(** X4: a serde that is not a [GeneralSerde] survives every run of
    registrations, on the input side and on the output side, whatever
    the signatures registered with that [HandlerIO]. *)
Theorem register_all_keeps_explicit_serdes rs w w' l io :
  register_all SYM pydantic_deserialize pydantic_serialize rs w = Some w' →
  handler_ios w !! l = Some io →
  ∃ io', handler_ios w' !! l = Some io' ∧
         (isinstance_GeneralSerde (input_serde io) = false →
          input_serde io' = input_serde io) ∧
         (isinstance_GeneralSerde (output_serde io) = false →
          output_serde io' = output_serde io).
Proof.
  intros Hrun Hio.
  destruct (register_all_io_steps _ _ _ _ _ Hrun Hio)
    as (io' & ? & _ & _ & ? & ?).
  by exists io'.
Qed.

(** How [extract_io_type_hints] can end. *)
Lemma extract_io_type_hints_inv l sg w w1 :
  extract_io_type_hints pydantic_deserialize pydantic_serialize l sg w
      = Some (Return (), w1) →
  ∃ io p, handler_ios w !! l = Some io ∧ last (parameters sg) = Some p.
Proof.
  intros H. destruct (last (parameters sg)) as [p|] eqn:Hp.
  - destruct (handler_ios w !! l) as [io|] eqn:Hio; [by exists io, p|].
    rewrite extract_io_type_hints_dangling in H; [done | done |].
    intros E. by rewrite E in Hp.
  - unfold extract_io_type_hints in H. by rewrite Hp in H.
Qed.

(** X5: [extract_io_type_hints] is idempotent: run again with the same
    signature on the store it left, it succeeds and leaves that store. *)
Theorem extract_io_type_hints_idempotent l sg w w1 :
  extract_io_type_hints pydantic_deserialize pydantic_serialize l sg w
      = Some (Return (), w1) →
  extract_io_type_hints pydantic_deserialize pydantic_serialize l sg w1
      = Some (Return (), w1).
Proof.
  intros H. destruct (extract_io_type_hints_inv _ _ _ _ H) as (io & p & Hio & Hp).
  rewrite (extract_io_type_hints_run _ _ _ _ _ _ _ Hio Hp) in H.
  injection H as <-.
  erewrite extract_io_type_hints_run; [|apply lookup_insert_eq|exact Hp].
  cbn. by rewrite insert_insert_eq, !chosen_again.
Qed.

(** X15: called on a live [HandlerIO], [extract_io_type_hints] raises
    the [IndexError] of [[-1]] exactly when the signature has no
    parameters, the store is then untouched, and it raises in no other
    case. *)
Theorem extract_io_type_hints_index_error l sg w io :
  handler_ios w !! l = Some io →
  (extract_io_type_hints pydantic_deserialize pydantic_serialize l sg w
      = Some (Raise (IndexError "list index out of range"), w)
   ↔ parameters sg = [])
  ∧ (∀ e w', extract_io_type_hints pydantic_deserialize pydantic_serialize l sg w
      = Some (Raise e, w') → parameters sg = []).
Proof.
  intros Hio.
  destruct (last (parameters sg)) as [p|] eqn:Hp.
  - rewrite (extract_io_type_hints_run _ _ _ _ _ _ _ Hio Hp).
    split; [split|]; try discriminate.
    intros E. by rewrite E in Hp.
  - apply last_None in Hp. unfold extract_io_type_hints.
    rewrite Hp. simpl. by repeat split.
Qed.

(** X6: two registrations that share one default [HandlerIO]: when the
    first payload annotation is a Pydantic model, the input serde after
    both is the Pydantic serde of the first annotation, the input hint is
    the one of the second, and both descriptors refer to the shared
    object. *)
Theorem shared_handler_io_keeps_first_model
    tag1 nm1 k1 f1 sg1 tag2 nm2 k2 f2 sg2 l w h1 w1 h2 w2 io p1 p2 :
  make_handler SYM pydantic_deserialize pydantic_serialize tag1 l nm1 k1 f1 sg1 w
      = Some (Return h1, w1) →
  make_handler SYM pydantic_deserialize pydantic_serialize tag2 l nm2 k2 f2 sg2 w1
      = Some (Return h2, w2) →
  handler_ios w !! l = Some io →
  last (parameters sg1) = Some p1 →
  last (parameters sg2) = Some p2 →
  is_pydantic (param_annotation p1) = true →
  isinstance_GeneralSerde (input_serde io) = true →
  ∃ io2 H1 H2,
    handler_ios w2 !! l = Some io2 ∧
    input_serde io2 = Pydantic (param_annotation p1) ∧
    input_type io2 = hint (param_annotation p2) ∧
    handlers w2 !! h1 = Some H1 ∧ handler_io H1 = l ∧
    handlers w2 !! h2 = Some H2 ∧ handler_io H2 = l.
Proof.
  intros M1 M2 Hio Hp1 Hp2 P1 G.
  assert (∃ H1, handlers w2 !! h1 = Some H1 ∧ handler_io H1 = l) as (H1 & HH1 & Hl1).
  { pose proof M1 as M1'.
    apply inv in M1' as (? & ? & _ & _ & _ & _ & Hw1).
    eexists. split.
    - eapply make_handler_handlers_kept; [exact M2|].
      rewrite Hw1. apply lookup_insert_eq.
    - reflexivity. }
  apply inv in M1 as (io' & p1' & Hio' & Hp1' & _ & _ & ->).
  assert (io' = io) as -> by congruence.
  assert (p1' = p1) as -> by congruence.
  apply inv in M2 as (io1 & p2' & Hio1 & Hp2' & _ & _ & ->).
  assert (p2' = p2) as -> by congruence.
  cbn [handler_ios] in Hio1. rewrite lookup_insert_eq in Hio1.
  injection Hio1 as <-.
  eexists _, H1, _. cbn [handler_ios handlers].
  split; [apply lookup_insert_eq|].
  split; [cbn; rewrite P1, G; cbn; by rewrite andb_false_r|].
  split; [reflexivity|].
  split; [exact HH1|]. split; [exact Hl1|].
  split; [apply lookup_insert_eq | reflexivity].
Qed.

(** X7: a registration of [f] writes one entry only, the unique symbol
    in [vars(f)]: every other attribute of [f] and every attribute of any
    other function reads as before. *)
Theorem make_handler_writes_one_key tag l nm k f sg w o w' g key :
  make_handler SYM pydantic_deserialize pydantic_serialize tag l nm k f sg w
      = Some (o, w') →
  fn_id g ≠ fn_id f ∨ key ≠ SYM →
  vars w' g !! key = vars w g !! key.
Proof.
  intros H Hne. destruct o as [h|e].
  - apply inv in H as (io & p & _ & _ & _ & _ & ->).
    unfold vars. cbn [fn_dicts].
    destruct (decide (fn_id f = fn_id g)) as [E|E].
    + rewrite E, lookup_insert_eq. cbn.
      destruct Hne as [Hne|Hne]; [congruence|]. by rewrite lookup_insert_ne.
    + by rewrite lookup_insert_ne.
  - by apply make_handler_raise_inv in H as ->.
Qed.

(** X8: a run of registrations only adds descriptors: every descriptor
    of the store before is in the store after, unchanged. *)
Theorem register_all_only_adds_descriptors rs w w' :
  register_all SYM pydantic_deserialize pydantic_serialize rs w
      = Some w' → handlers w ⊆ handlers w'.
Proof.
  intros Hrun. apply map_subseteq_spec. intros h H Hh.
  by eapply register_all_handlers_kept.
Qed.


(** The descriptor and the [HandlerIO] a successful registration leaves. *)
Lemma make_handler_result tag l nm k f sg w h w' :
  make_handler SYM pydantic_deserialize pydantic_serialize tag l nm k f sg w
      = Some (Return h, w') →
  ∃ io p H,
    handler_ios w !! l = Some io ∧ last (parameters sg) = Some p ∧
    handlers w' !! h = Some H ∧ handler_io H = l ∧ fn H = f ∧
    arity H = Z.of_nat (length (parameters sg)) ∧
    handler_ios w' !! l =
      Some {| accept := accept io; content_type := content_type io;
              input_serde := chosen (param_annotation p) (input_serde io);
              output_serde := chosen (return_annotation sg) (output_serde io);
              input_type := hint (param_annotation p);
              output_type := hint (return_annotation sg) |}.
Proof.
  intros M. apply inv in M as (io & p & Hio & Hp & _ & _ & ->).
  exists io, p. eexists. cbn [handlers handler_ios].
  split; [done|]. split; [done|].
  split; [apply lookup_insert_eq|].
  repeat split. apply lookup_insert_eq.
Qed.

(** X10: a function registered with a signature of any length other
    than two is invoked with the context alone, whatever the input
    buffer: the only calls are the function on [[ctx]] and, if it
    returns, the output serde. *)
Theorem registered_arity_not_two_gets_context_only
    tag l nm k f sg w h w' ctx in_buffer :
  make_handler SYM pydantic_deserialize pydantic_serialize tag l nm k f sg w
      = Some (Return h, w') →
  length (parameters sg) ≠ 2%nat →
  ∃ io',
    handler_ios w' !! l = Some io' ∧
    invoke_handler w' h ctx in_buffer =
      Some (match fn_call f [ctx] with
            | Raise e => (Raise e, [CallFn [ctx]])
            | Return out_arg =>
                (match serialize (output_serde io') out_arg with
                 | Raise e => Raise e
                 | Return out_buffer => Return out_buffer
                 end,
                 [CallFn [ctx]; CallSerialize out_arg])
            end).
Proof.
  intros M Hlen.
  destruct (make_handler_result _ _ _ _ _ _ _ _ _ M)
    as (io & p & H & _ & _ & HH & Hl & Hf & Ha & Hio').
  eexists. split; [exact Hio'|].
  rewrite <- Hl in Hio'.
  rewrite (invoke_handler_without_payload w' h H _ HH Hio' ctx in_buffer);
    [by rewrite Hf|].
  rewrite Ha. lia.
Qed.



(** A resolved name is not empty. *)
Lemma resolved_name_not_empty nm f :
  no_name (if no_name nm then Some (fn_name f) else nm) = false →
  default EmptyString (if no_name nm then Some (fn_name f) else nm) ≠ EmptyString.
Proof.
  intros H. apply no_name_false_inv in H as (n & -> & Hn). exact Hn.
Qed.

(** X16: if every descriptor of the store has a non-empty name, an
    arity of at least 1 and a live [HandlerIO], the same holds after any
    run of registrations. *)
Theorem register_all_descriptors_well_formed rs w w' :
  (∀ h H, handlers w !! h = Some H →
          name H ≠ EmptyString ∧ (1 ≤ arity H)%Z ∧
          is_Some (handler_ios w !! handler_io H)) →
  register_all SYM pydantic_deserialize pydantic_serialize rs w = Some w' →
  ∀ h H, handlers w' !! h = Some H →
         name H ≠ EmptyString ∧ (1 ≤ arity H)%Z ∧
         is_Some (handler_ios w' !! handler_io H).
Proof.
  revert w. induction rs as [|r rs IH]; intros w Hw Hrun; simpl in Hrun.
  - injection Hrun as <-. exact Hw.
  - destruct (register SYM pydantic_deserialize pydantic_serialize r w)
      as [[o w1]|] eqn:E; [|discriminate].
    apply (IH w1); [|exact Hrun]. clear IH Hrun.
    intros h H Hh. destruct o as [h0|e].
    + pose proof E as E'.
      apply inv in E' as (io & p & Hio & Hp & Hn & _ & ->).
      cbn [handlers handler_ios] in *.
      destruct (decide (h0 = h)) as [->|Hne].
      * rewrite lookup_insert_eq in Hh. injection Hh as <-. cbn.
        split; [by apply resolved_name_not_empty|].
        split; [apply last_length_pos, Nat.eqb_neq in Hp; lia|].
        rewrite lookup_insert_eq. by eexists.
      * rewrite lookup_insert_ne in Hh by done.
        destruct (Hw h H Hh) as (? & ? & [io1 Hio1]).
        split; [done|]. split; [done|].
        destruct (decide (reg_handler_io r = handler_io H)) as [<-|Hl].
        -- rewrite lookup_insert_eq. by eexists.
        -- rewrite lookup_insert_ne by done. by exists io1.
    + apply make_handler_raise_inv in E as ->. exact (Hw h H Hh).
Qed.

(** X17: if every descriptor attached to a function is a descriptor of
    that function, the same holds after any run of registrations: what
    [handler_from_callable f] finds was built for [f]. *)
Theorem register_all_attached_descriptor_is_own rs w w' :
  (∀ f h, vars w f !! SYM = Some (AttrHandler h) →
          ∃ H, handlers w !! h = Some H ∧ fn_id (fn H) = fn_id f) →
  register_all SYM pydantic_deserialize pydantic_serialize rs w = Some w' →
  ∀ f h, vars w' f !! SYM = Some (AttrHandler h) →
         ∃ H, handlers w' !! h = Some H ∧ fn_id (fn H) = fn_id f.
Proof.
  revert w. induction rs as [|r rs IH]; intros w Hw Hrun; simpl in Hrun.
  - injection Hrun as <-. exact Hw.
  - destruct (register SYM pydantic_deserialize pydantic_serialize r w)
      as [[o w1]|] eqn:E; [|discriminate].
    apply (IH w1); [|exact Hrun]. clear IH Hrun.
    intros f h Hf. destruct o as [h0|e].
    + destruct (decide (fn_id (reg_wrapped r) = fn_id f)) as [Eq|Hne].
      * pose proof (make_handler_attached _ _ _ _ _ _ _ _ _ _ _ _ E) as Ha.
        rewrite handler_from_callable_run in Ha.
        assert (vars w1 f = vars w1 (reg_wrapped r)) as Hv
          by (unfold vars; by rewrite Eq).
        rewrite Hv in Hf. rewrite Hf in Ha. injection Ha as ->.
        apply inv in E as (io & p & _ & _ & _ & _ & ->).
        eexists. split; [apply lookup_insert_eq|]. exact Eq.
      * rewrite (make_handler_vars_other _ _ _ _ _ _ _ _ _ _ _ _ _ E Hne) in Hf.
        destruct (Hw f h Hf) as (H & HH & Hfn). exists H. split; [|done].
        eapply make_handler_handlers_kept; [exact E | exact HH].
    + apply make_handler_raise_inv in E as ->. exact (Hw f h Hf).
Qed.

End MoreRegistration.

Section MoreInvocation.
Variables (w : World) (handler : ref) (h : Handler) (io : HandlerIO).
Hypothesis Hhandler : handlers w !! handler = Some h.
Hypothesis Hio : handler_ios w !! handler_io h = Some io.

(** X9: an exception of the output serde comes out of [invoke_handler]
    as it is (it is not turned into a [TerminalError]), after the user
    function has been called, for handlers with and without payload. *)
Theorem invoke_handler_serialize_error ctx in_buffer :
  (∀ v r e, arity h = 2 →
     deserialize (input_serde io) in_buffer = Return v →
     fn_call (fn h) [ctx; v] = Return r →
     serialize (output_serde io) r = Raise e →
     invoke_handler w handler ctx in_buffer =
       Some (Raise e,
             [CallDeserialize in_buffer; CallFn [ctx; v]; CallSerialize r]))
  ∧ (∀ r e, arity h ≠ 2 →
       fn_call (fn h) [ctx] = Return r →
       serialize (output_serde io) r = Raise e →
       invoke_handler w handler ctx in_buffer =
         Some (Raise e, [CallFn [ctx]; CallSerialize r])).
Proof.
  split.
  - intros v r e Ha Hv Hr He.
    by rewrite (invoke_handler_with_payload w handler h io), Hv, Hr, He.
  - intros r e Ha Hr He.
    by rewrite (invoke_handler_without_payload w handler h io), Hr, He.
Qed.

End MoreInvocation.

(** X11: an invocation makes at most three calls, in one of five
    shapes: [deserialize] comes first if at all, the user function is
    called at most once, the output serde only after the function, and
    an invocation whose trace does not end in [serialize] has raised. *)
Theorem invoke_handler_call_discipline w handler ctx in_buffer r t :
  invoke_handler w handler ctx in_buffer = Some (r, t) →
  (∃ e, r = Raise e ∧ t = [CallDeserialize in_buffer])
  ∨ (∃ v e, r = Raise e ∧ t = [CallDeserialize in_buffer; CallFn [ctx; v]])
  ∨ (∃ v o, t = [CallDeserialize in_buffer; CallFn [ctx; v]; CallSerialize o])
  ∨ (∃ e, r = Raise e ∧ t = [CallFn [ctx]])
  ∨ (∃ o, t = [CallFn [ctx]; CallSerialize o]).
Proof.
  intros H.
  destruct (handlers w !! handler) as [h|] eqn:Hh;
    [|unfold invoke_handler in H; by rewrite Hh in H].
  destruct (handler_ios w !! handler_io h) as [io|] eqn:Hi.
  2:{ unfold invoke_handler in H. rewrite Hh in H. cbn in H.
      by rewrite Hi in H. }
  destruct (decide (arity h = 2)) as [Ha|Ha].
  - rewrite (invoke_handler_with_payload w handler h io Hh Hi ctx in_buffer Ha) in H.
    destruct (deserialize (input_serde io) in_buffer) as [v|e].
    + destruct (fn_call (fn h) [ctx; v]) as [o|e];
        injection H as <- <-; eauto 10.
    + injection H as <- <-. eauto.
  - rewrite (invoke_handler_without_payload w handler h io Hh Hi ctx in_buffer Ha) in H.
    destruct (fn_call (fn h) [ctx]) as [o|e];
      injection H as <- <-; eauto 10.
Qed.


Import Examples MoreExamples.

(** A function without a name, registered without one. *)
Lemma make_handler_raises_only_value_errors_witness :
  world0 = world0 ∧
  (ValueError "Handler name must be provided"
     = ValueError "Handler name must be provided" ∨
   ValueError "Handler name must be provided"
     = ValueError "Handler must have at least one parameter").
Proof.
  apply (make_handler_raises_only_value_errors symbol model_validate_json
           model_dump_json greeter 1%positive None None nameless sig_ctx_only
           world0).
  reflexivity.
Defined.

(** [ping] with a signature that declares nothing. *)
Lemma make_handler_succeeds_iff_witness :
  (∃ h w', make greeter 1%positive None None ping sig_none world0
             = Some (Return h, w'))
  ↔ (no_name None = false ∨ fn_name ping ≠ EmptyString)
    ∧ parameters sig_none ≠ [].
Proof.
  apply (make_handler_succeeds_iff symbol model_validate_json model_dump_json
           greeter 1%positive None None ping sig_none world0 default_io).
  reflexivity.
Defined.

(** Two model handlers registered with the octet-stream [HandlerIO]. *)
Lemma register_all_keeps_content_types_witness :
  ∃ io',
    handler_ios
      (store_after_all (registrations 2%positive
                          [(greet, sig_model_in); (leave, sig_farewell)]) world0)
      !! 2%positive = Some io' ∧
    accept io' = "application/octet-stream" ∧
    content_type io' = "application/octet-stream".
Proof.
  apply (register_all_keeps_content_types symbol model_validate_json model_dump_json
           (registrations 2%positive [(greet, sig_model_in); (leave, sig_farewell)])
           world0 _ 2%positive custom_io); vm_compute; reflexivity.
Defined.

(** The same run: the bytes serde on the input side is kept. *)
Lemma register_all_keeps_explicit_serdes_witness :
  ∃ io',
    handler_ios
      (store_after_all (registrations 2%positive
                          [(greet, sig_model_in); (leave, sig_farewell)]) world0)
      !! 2%positive = Some io' ∧
    (isinstance_GeneralSerde BytesSerde = false → input_serde io' = BytesSerde) ∧
    (isinstance_GeneralSerde GeneralSerde = false → output_serde io' = GeneralSerde).
Proof.
  apply (register_all_keeps_explicit_serdes symbol model_validate_json model_dump_json
           (registrations 2%positive [(greet, sig_model_in); (leave, sig_farewell)])
           world0 _ 2%positive custom_io); vm_compute; reflexivity.
Defined.

(** The hints of a model signature, extracted twice. *)
Lemma extract_io_type_hints_idempotent_witness :
  extract_io_type_hints model_validate_json model_dump_json 1%positive sig_model_in
    (store_after (extract_io_type_hints model_validate_json model_dump_json
                    1%positive sig_model_in) world0)
  = Some (Return (),
          store_after (extract_io_type_hints model_validate_json model_dump_json
                         1%positive sig_model_in) world0).
Proof.
  apply (extract_io_type_hints_idempotent model_validate_json model_dump_json
           1%positive sig_model_in world0).
  reflexivity.
Defined.

(** The hints of a signature that declares nothing. *)
Lemma extract_io_type_hints_index_error_witness :
  extract_io_type_hints model_validate_json model_dump_json 1%positive sig_none world0
  = Some (Raise (IndexError "list index out of range"), world0).
Proof.
  apply (proj1 (extract_io_type_hints_index_error model_validate_json model_dump_json
                  1%positive sig_none world0 default_io eq_refl)).
  reflexivity.
Defined.

(** [greet] then [leave] on the default [HandlerIO]. *)
Lemma shared_handler_io_keeps_first_model_witness :
  ∃ io2 H1 H2,
    handler_ios
      (store_after_all (registrations 1%positive
                          [(greet, sig_model_in); (leave, sig_farewell)]) world0)
      !! 1%positive = Some io2 ∧
    input_serde io2 = PydanticJsonSerde model_validate_json model_dump_json Greeting ∧
    input_type io2 =
      Some {| th_annotation := Some Farewell; th_is_pydantic := true |} ∧
    handlers
      (store_after_all (registrations 1%positive
                          [(greet, sig_model_in); (leave, sig_farewell)]) world0)
      !! 1%positive = Some H1 ∧ handler_io H1 = 1%positive ∧
    handlers
      (store_after_all (registrations 1%positive
                          [(greet, sig_model_in); (leave, sig_farewell)]) world0)
      !! 2%positive = Some H2 ∧ handler_io H2 = 1%positive.
Proof.
  apply (shared_handler_io_keeps_first_model symbol model_validate_json model_dump_json
           greeter None None greet sig_model_in
           greeter None None leave sig_farewell
           1%positive world0 1%positive
           (store_after (make greeter 1%positive None None greet sig_model_in) world0)
           2%positive
           (store_after_all (registrations 1%positive
                               [(greet, sig_model_in); (leave, sig_farewell)]) world0)
           default_io (param "req" Greeting) (param "req" Farewell));
    vm_compute; reflexivity.
Defined.

(** Registering [double] leaves its [__doc__] entry alone. *)
Lemma make_handler_writes_one_key_witness :
  vars world_double double !! "__doc__" = vars world0 double !! "__doc__".
Proof.
  apply (make_handler_writes_one_key symbol model_validate_json model_dump_json
           greeter 1%positive None (Some kind_exclusive) double sig_int_int
           world0 (Return 1%positive) world_double double "__doc__").
  - reflexivity.
  - right. discriminate.
Defined.

(** Two more registrations after [double]. *)
Lemma register_all_only_adds_descriptors_witness :
  handlers (store_after_all (registrations 1%positive
                               [(ping, sig_ctx_only); (fail, sig_int_int)])
              world_double)
    !! 1%positive = Some double_descriptor.
Proof.
  apply (lookup_weaken (handlers world_double)); [reflexivity|].
  apply (register_all_only_adds_descriptors symbol model_validate_json model_dump_json
           (registrations 1%positive [(ping, sig_ctx_only); (fail, sig_int_int)])).
  reflexivity.
Defined.

(** [add] declares three parameters and is called with one argument. *)
Lemma registered_arity_not_two_gets_context_only_witness :
  ∃ io',
    handler_ios (store_after (make greeter 1%positive None None add3 sig_three) world0)
      !! 1%positive = Some io' ∧
    invoke_handler (store_after (make greeter 1%positive None None add3 sig_three) world0)
      1%positive ctx five
    = Some (Raise (TypeError "add() missing required positional arguments"),
            [CallFn [ctx]]).
Proof.
  apply (registered_arity_not_two_gets_context_only symbol model_validate_json
           model_dump_json greeter 1%positive None None add3 sig_three world0
           1%positive _ ctx five).
  - reflexivity.
  - discriminate.
Defined.


(** [double] and [ping] with an output serde that only takes bytes. *)
Lemma invoke_handler_serialize_error_witness :
  invoke_handler
    (store_after_all (registrations 3%positive
                        [(double, sig_int_int); (ping, sig_ctx_only)]) world_bytes_out)
    1%positive ctx five
  = Some (Raise (TypeError "expected bytes"),
          [CallDeserialize five; CallFn [ctx; PyInt 5]; CallSerialize (PyInt 10)])
  ∧ invoke_handler
      (store_after_all (registrations 3%positive
                          [(double, sig_int_int); (ping, sig_ctx_only)]) world_bytes_out)
      2%positive ctx five
    = Some (Raise (TypeError "expected bytes"),
            [CallFn [ctx]; CallSerialize (PyInt 1)]).
Proof.
  split.
  - refine (proj1 (invoke_handler_serialize_error _ 1%positive
                     {| service_tag := greeter; handler_io := 3%positive;
                        kind := None; name := "double"; fn := double; arity := 2 |}
                     (set_output_type
                        (Some {| th_annotation := Some ann_empty;
                                 th_is_pydantic := false |})
                        (set_input_type
                           (Some {| th_annotation := Some ann_empty;
                                    th_is_pydantic := false |}) bytes_out_io))
                     _ _ ctx five)
              (PyInt 5) (PyInt 10) _ _ _ _ _); reflexivity.
  - refine (proj2 (invoke_handler_serialize_error _ 2%positive
                     {| service_tag := greeter; handler_io := 3%positive;
                        kind := None; name := "ping"; fn := ping; arity := 1 |}
                     (set_output_type
                        (Some {| th_annotation := Some ann_empty;
                                 th_is_pydantic := false |})
                        (set_input_type
                           (Some {| th_annotation := Some ann_empty;
                                    th_is_pydantic := false |}) bytes_out_io))
                     _ _ ctx five)
              (PyInt 1) _ _ _ _); first [reflexivity | discriminate].
Defined.

(** The three calls of [double] on [b"5"]. *)
Lemma invoke_handler_call_discipline_witness :
  (∃ e, Return ten = Raise e ∧
        [CallDeserialize five; CallFn [ctx; PyInt 5]; CallSerialize (PyInt 10)]
          = [CallDeserialize five])
  ∨ (∃ v e, Return ten = Raise e ∧
            [CallDeserialize five; CallFn [ctx; PyInt 5]; CallSerialize (PyInt 10)]
              = [CallDeserialize five; CallFn [ctx; v]])
  ∨ (∃ v o, [CallDeserialize five; CallFn [ctx; PyInt 5]; CallSerialize (PyInt 10)]
              = [CallDeserialize five; CallFn [ctx; v]; CallSerialize o])
  ∨ (∃ e, Return ten = Raise e ∧
          [CallDeserialize five; CallFn [ctx; PyInt 5]; CallSerialize (PyInt 10)]
            = [CallFn [ctx]])
  ∨ (∃ o, [CallDeserialize five; CallFn [ctx; PyInt 5]; CallSerialize (PyInt 10)]
            = [CallFn [ctx]; CallSerialize o]).
Proof.
  apply (invoke_handler_call_discipline world_fail 1%positive ctx five).
  reflexivity.
Defined.

(** From a store without descriptors. *)
Lemma register_all_descriptors_well_formed_witness :
  name {| service_tag := greeter; handler_io := 1%positive; kind := None;
          name := "add"; fn := add3; arity := 3 |} ≠ EmptyString ∧
  (1 ≤ arity {| service_tag := greeter; handler_io := 1%positive; kind := None;
                name := "add"; fn := add3; arity := 3 |})%Z ∧
  is_Some (handler_ios
             (store_after_all (registrations 1%positive
                                 [(ping, sig_ctx_only); (add3, sig_three)]) world0)
             !! handler_io
                  {| service_tag := greeter; handler_io := 1%positive; kind := None;
                     name := "add"; fn := add3; arity := 3 |}).
Proof.
  apply (register_all_descriptors_well_formed symbol model_validate_json model_dump_json
           (registrations 1%positive [(ping, sig_ctx_only); (add3, sig_three)])
           world0
           (store_after_all (registrations 1%positive
                               [(ping, sig_ctx_only); (add3, sig_three)]) world0))
    with (h := 2%positive).
  - intros h H Hh. discriminate Hh.
  - vm_compute; reflexivity.
  - vm_compute; reflexivity.
Defined.

(** From a store where nothing is attached. *)
Lemma register_all_attached_descriptor_is_own_witness :
  ∃ H, handlers (store_after_all (registrations 1%positive
                                    [(ping, sig_ctx_only); (add3, sig_three)]) world0)
         !! 2%positive = Some H ∧ fn_id (fn H) = fn_id add3.
Proof.
  apply (register_all_attached_descriptor_is_own symbol model_validate_json
           model_dump_json
           (registrations 1%positive [(ping, sig_ctx_only); (add3, sig_three)])
           world0
           (store_after_all (registrations 1%positive
                               [(ping, sig_ctx_only); (add3, sig_three)]) world0)).
  - intros f h Hf. discriminate Hf.
  - vm_compute; reflexivity.
  - vm_compute; reflexivity.
Defined.

End HandlerExtra.
